(** * Page builder hooks: table query state machine, presets, error parsing

    A shallow embedding of
    - [src/utils/functions.ts] ([pruneNullOrUndefinedFields]),
    - the error message helper ([parseErrorMessage]),
    - the presets hook ([usePresets]) and
    - the table query hook ([useTableQuery]),
    together with the properties their specification states about them.

    JavaScript values are modelled by the inductive type [value]; numbers are
    the integers (pages, page sizes, counts and millisecond timestamps are all
    integral), strings are sequences of 8-bit code units, and an object is the
    list of its own enumerable properties in insertion order, the order that
    [JSON.stringify] and lodash's [transform] observe. *)

From Stdlib Require Import String Ascii List ZArith Bool Lia DecimalString.
From Stdlib Require DecimalZ DecimalPos.
From Stdlib Require Import Permutation Sorted.
Import ListNotations.

Local Open Scope string_scope.
Local Open Scope Z_scope.

(* ================================================================= *)
(** ** JavaScript values *)

Module Js.

#[warnings="-register-all"]
Inductive value : Type :=
| VUndefined
| VNull
| VBool (b : bool)
| VNum (n : Z)
| VStr (s : string)
| VArr (items : list value)
| VObj (fields : list (string * value)).

(** An object: own enumerable properties, in insertion order. *)
Definition obj : Type := list (string * value).

Fixpoint lookup (k : string) (o : obj) : option value :=
  match o with
  | [] => None
  | (k', v) :: rest => if String.eqb k k' then Some v else lookup k rest
  end.

(** [o[k] = v]: an existing property keeps its place, a new one is added
    last.  This is also what the spread [{...o, k: v}] produces. *)
Fixpoint obj_set (o : obj) (k : string) (v : value) : obj :=
  match o with
  | [] => [(k, v)]
  | (k', v') :: rest =>
      if String.eqb k k' then (k', v) :: rest else (k', v') :: obj_set rest k v
  end.

(** [v?.k].  Primitives and arrays carry none of the property names the
    program reads, so the access yields [undefined] on them. *)
Definition get (v : value) (k : string) : value :=
  match v with
  | VObj o => match lookup k o with Some x => x | None => VUndefined end
  | _ => VUndefined
  end.

(** [v === undefined || v === null]; lodash's [isNil]. *)
Definition nullish (v : value) : bool :=
  match v with
  | VUndefined | VNull => true
  | _ => false
  end.

(** [a ?? b] *)
Definition coalesce (a b : value) : value := if nullish a then b else a.

(** ToBoolean *)
Definition truthy (v : value) : bool :=
  match v with
  | VUndefined | VNull => false
  | VBool b => b
  | VNum n => negb (n =? 0)
  | VStr s => negb (String.eqb s "")
  | VArr _ | VObj _ => true
  end.

(** [a || b] *)
Definition or_else (a b : value) : value := if truthy a then a else b.

(** [a === b]: primitives are compared by value; two objects or arrays are
    distinct references wherever the program compares them. *)
Definition strictEq (a b : value) : bool :=
  match a, b with
  | VUndefined, VUndefined => true
  | VNull, VNull => true
  | VBool x, VBool y => Bool.eqb x y
  | VNum x, VNum y => x =? y
  | VStr x, VStr y => String.eqb x y
  | _, _ => false
  end.







(** [s.startsWith(p)] *)
Definition startsWith (s p : string) : bool := String.prefix p s.

(** [s.includes(p)] *)
Fixpoint includes (s p : string) : bool :=
  (String.prefix p s ||
   match s with
   | EmptyString => false
   | String _ rest => includes rest p
   end)%bool.

(** A settled promise. *)
Inductive Settled (A : Type) : Type :=
| Fulfilled (a : A)
| Rejected (reason : value).
Arguments Fulfilled {A} a.
Arguments Rejected {A} reason.

End Js.

Export Js.

Declare Scope js_scope.
Delimit Scope js_scope with js.
Notation "a ?? b" := (coalesce a b) (at level 60, right associativity) : js_scope.
Notation "v ?. k" := (get v k) (at level 5, left associativity, format "v ?. k") : js_scope.
Local Open Scope js_scope.

(* ================================================================= *)
(** ** Response normalisation ([useTableQuery.tsx], [extractDataFromResponse]) *)

Module Normalize.

(** The [??] chain of the source, in its order.  The chain is associative,
    so the grouping does not matter. *)
Definition extractDataFromResponse (data : value) : value :=
  data?."response"?."mainResult" ??
  data?."response" ??
  data?."mainResult" ??
  data?."MainResult" ??
  data?."body"?."mainResult" ??
  data?."body"?."data" ??
  data?."body" ??
  data?."data" ??
  data?."Data" ??
  VArr [].

(** The envelope shapes the chain knows, as the list of the paths it probes. *)
Definition envelope_paths (data : value) : list value :=
  [ data?."response"?."mainResult";
    data?."response";
    data?."mainResult";
    data?."MainResult";
    data?."body"?."mainResult";
    data?."body"?."data";
    data?."body";
    data?."data";
    data?."Data" ].

(** [pagination.total] of the hook's result. *)
Definition extractTotal (data : value) : value :=
  data?."mainResultCount" ??
  data?."MainResultCount" ??
  data?."body"?."mainResultCount" ??
  data?."response"?."mainResultCount" ??
  data?."total_rows" ??
  data?."totalCount" ??
  VNum 0.

End Normalize.

(* ================================================================= *)
(** ** [src/utils/functions.ts] *)

Module Functions.


(** lodash's [isEmpty], on an object: it has no own enumerable property. *)
Definition isEmpty (o : obj) : bool :=
  match o with
  | [] => true
  | _ :: _ => false
  end.

(** [isString(value) && value === ""] *)
Definition isEmptyString (v : value) : bool :=
  match v with
  | VStr s => String.eqb s ""
  | _ => false
  end.

(** lodash's [transform(object, iteratee, accumulator)]: the iteratee is run
    on every own property in order, each time on the accumulator the previous
    run left.  (An iteratee that returns [false] would stop the walk; the one
    used here returns the accumulator, an object.) *)
Definition transform (o : obj) (iteratee : obj -> value -> string -> obj)
    (accumulator : obj) : obj :=
  fold_left (fun result kv => iteratee result (snd kv) (fst kv)) o accumulator.

(** The assignment [result[key] = value] on an object made by [{}].  The
    key ["__proto__"] names the accessor of [Object.prototype]: assigning to
    it sets the prototype of [result] (when the value is an object) or does
    nothing, and creates no own property.  The own properties are all that
    the program reads of a pruned object ([isEmpty], the walk of [transform],
    [JSON.stringify]). *)
Definition assign (result : obj) (key : string) (v : value) : obj :=
  if String.eqb key "__proto__" then result else obj_set result key v.

Fixpoint recursiveTransform (result : obj) (value : value) (key : string)
    {struct value} : obj :=
  match value with
  | VObj nested =>
      (* Handle nested objects *)
      let objRes := transform nested recursiveTransform [] in
      if negb (isEmpty objRes) then assign result key (VObj objRes)
      else result
  | _ =>
      (* Skip null, undefined, and empty strings *)
      if (nullish value || isEmptyString value)%bool then result
      (* Keep all other values *)
      else assign result key value
  end.

Definition pruneNullOrUndefinedFields (o : obj) : obj :=
  transform o recursiveTransform [].

(** A value the pruning is meant to drop: [null], [undefined], the empty
    string, or an object without properties. *)
Definition isBlank (v : value) : bool :=
  (nullish v || isEmptyString v
   || match v with VObj [] => true | _ => false end)%bool.

(** Pruned along nested plain objects: no property, at any depth reached
    through objects only, holds a blank value.  Arrays are leaves. *)
Fixpoint pruned (v : value) : bool :=
  match v with
  | VObj fields =>
      forallb (fun kv => negb (isBlank (snd kv)) && pruned (snd kv))%bool
              fields
  | _ => true
  end.


End Functions.

(* ================================================================= *)
(** ** The error message helper ([parseErrorMessage]) *)

Module ErrorMessageHelper.



Section WithToString.

(** The call of the [toString] method that [error] inherits from its
    prototype (String, Number, Error, Object, ...): the value it returns,
    [VUndefined] when the prototype chain has no such method, or [None] when
    the method throws.  Which method runs is decided by the prototype of the
    error, so it is an input. *)
Variable inheritedToString : value -> option value.




End WithToString.




End ErrorMessageHelper.

(* ================================================================= *)
(** ** The presets hook ([usePresets]) *)

Module UsePresets.

(** [Array.prototype.sort(comparefn)]: a stable sort; [comparefn a b <= 0]
    leaves [a] before [b].  A comparator result of NaN counts as 0. *)
Section Sort.
Context {A : Type}.
Variable comparefn : A -> A -> option Z.

Definition sortCompare (a b : A) : Z :=
  match comparefn a b with
  | Some v => v
  | None => 0
  end.

Fixpoint insert (x : A) (sorted : list A) : list A :=
  match sorted with
  | [] => [x]
  | y :: rest =>
      if sortCompare x y <=? 0 then x :: y :: rest else y :: insert x rest
  end.

Fixpoint sort (l : list A) : list A :=
  match l with
  | [] => []
  | x :: rest => insert x (sort rest)
  end.
End Sort.

(** [.filter(Boolean)] on the result of a [map] that yields an object or
    [null]. *)
Fixpoint filterBoolean (l : list (option obj)) : list obj :=
  match l with
  | [] => []
  | Some o :: rest => o :: filterBoolean rest
  | None :: rest => filterBoolean rest
  end.

Section WithEngine.

(** [JSON.parse]; [None] when it throws. *)
Variable JSON_parse : value -> option value.
(** ToNumber; [None] for NaN. *)
Variable ToNumber : value -> option Z.

(** [v > 0] *)
Definition gtZero (v : value) : bool :=
  match ToNumber v with
  | Some n => 0 <? n
  | None => false
  end.

(** [a - b] *)
Definition minus (a b : value) : option Z :=
  match ToNumber a, ToNumber b with
  | Some x, Some y => Some (x - y)
  | _, _ => None
  end.

(** The callback of [presets.map]: the inner [try]/[catch]. *)
Definition parsePreset (preset : obj) : option obj :=
  match JSON_parse (VObj preset)?."data" with
  | Some parsedData => Some (obj_set preset "parsedData" parsedData)
  | None => None
  end.

Definition lastUpdated (preset : obj) : value :=
  (VObj preset)?."parsedData"?."lastUpdated".

Definition parsedPresets (presets : list obj) : list obj :=
  filter (fun preset => gtZero (lastUpdated preset))
         (filterBoolean (map parsePreset presets)).

(** Sort by lastUpdated (descending) *)
Definition byLastUpdatedDesc (a b : obj) : option Z :=
  minus (lastUpdated b) (lastUpdated a).

(** [presetKind] is [None] when it is [undefined]; the result is [None] for
    [null]. *)
Definition defaultPreset (presetKind : option Z) (presets : list obj)
    : option obj :=
  match presetKind, presets with
  | None, _ => None
  | _, [] => None
  | Some _, _ :: _ =>
      match sort byLastUpdatedDesc (parsedPresets presets) with
      | [] => None
      | mostRecent :: _ =>
          Some (obj_set mostRecent "data" (VObj mostRecent)?."parsedData")
      end
  end.

(** A valid entry: its [data] parses to [parsedData], whose [lastUpdated]
    is the number [t], greater than 0. *)
Definition validPreset (preset : obj) (parsedData : value) (t : Z) : Prop :=
  JSON_parse (VObj preset)?."data" = Some parsedData
  /\ ToNumber parsedData?."lastUpdated" = Some t
  /\ 0 < t.

End WithEngine.

(** The updater [addPreset] hands to [mutate] (with [revalidate: false]):
    [currentData ? [...currentData, newPreset] : [newPreset]]. *)
Definition addPresetUpdate (newPreset : obj) (currentData : option (list obj))
    : list obj :=
  match currentData with
  | Some l => l ++ [newPreset]
  | None => [newPreset]
  end.

(** The updater [deletePreset] hands to [mutate] (with [revalidate: false]):
    [currentPresets?.filter(p => p.presetId !== presetId) || []]. *)
Definition deletePresetUpdate (presetId : value)
    (currentPresets : option (list obj)) : list obj :=
  match currentPresets with
  | Some l =>
      filter (fun preset => negb (strictEq (VObj preset)?."presetId" presetId)) l
  | None => []
  end.

Definition presetKindRequired (what : string) : value :=
  VObj [("message", VStr ("PresetKind is required to " ++ what ++ " presets"))].

(** [addPreset({ name, data })], on the cached list ([None]: nothing cached).
    The server call comes first; once it has answered, the cached list is
    replaced by [addPresetUpdate] with [revalidate: false], so no request for
    the list follows.  A rejection leaves the cache as it was. *)
Definition addPreset (JSON_stringify : value -> string)
    (addPresetFn : Z -> value -> string -> Settled obj)
    (presetKind : option Z) (name data : value)
    (cached : option (list obj)) : Settled obj * option (list obj) :=
  match presetKind with
  | None => (Rejected (presetKindRequired "add"), cached)
  | Some kind =>
      let stringifiedData := JSON_stringify data in
      match addPresetFn kind name stringifiedData with
      | Fulfilled newPreset =>
          (Fulfilled newPreset, Some (addPresetUpdate newPreset cached))
      | Rejected err => (Rejected err, cached)
      end
  end.

(** [deletePreset(presetId)], on the cached list.  [agentDeletePreset] is the
    call [agent.deletePreset({ presetId: String(presetId) })]. *)
Definition deletePreset (agentDeletePreset : value -> Settled unit)
    (presetKind : option Z) (presetId : value)
    (cached : option (list obj)) : Settled unit * option (list obj) :=
  match presetKind with
  | None => (Rejected (presetKindRequired "delete"), cached)
  | Some _ =>
      match agentDeletePreset presetId with
      | Fulfilled _ =>
          (Fulfilled tt, Some (deletePresetUpdate presetId cached))
      | Rejected err => (Rejected err, cached)
      end
  end.

(** What [useSWR] hands back for the presets key. *)
Record SwrResult : Type := {
  data : option (list obj);
  error : value;
  isValidating : bool;
  isLoading : bool
}.

(** The members of the object the hook returns. *)
Inductive Member : Type :=
| MList (l : list obj)
| MPreset (p : option obj)
| MFlag (b : bool)
| MValue (v : value)
| MGetPresets
| MAddPreset
| MDeletePreset.

Section Hook.

Variable JSON_parse : value -> option value.
Variable ToNumber : value -> option Z.

(** The object literal of the [return] statement.  The entries [addPreset]
    and [deletePreset] are commented out in the source, so the object has
    the six properties below. *)
Definition usePresets (presetKind : option Z) (swr : SwrResult)
    : list (string * Member) :=
  let presets := match data swr with Some l => l | None => [] end in
  let enabled := match presetKind with Some _ => true | None => false end in
  [ ("presets", MList (if enabled then presets else []));
    ("defaultPreset",
      MPreset (if enabled
               then defaultPreset JSON_parse ToNumber presetKind presets
               else None));
    ("isLoading",
      MFlag (if enabled then (isValidating swr || isLoading swr)%bool
             else false));
    ("error", MValue (if enabled then error swr else VNull));
    ("getPresets", MGetPresets);
    ("presetsEnabled", MFlag enabled) ].

(** Destructuring [const { name } = usePresets(...)]; [None] is [undefined]. *)
Fixpoint member (name : string) (o : list (string * Member)) : option Member :=
  match o with
  | [] => None
  | (k, m) :: rest => if String.eqb name k then Some m else member name rest
  end.

End Hook.

(** A finite table standing in for [JSON.parse] in examples: a text of the
    table parses to the value next to it, anything else is rejected. *)
Definition parseTable (table : list (string * value)) (text : value)
    : option value :=
  match text with
  | VStr s => lookup s table
  | _ => None
  end.

(** ToNumber on numbers, booleans and [null]; everything else is taken as
    NaN.  Enough for presets whose [lastUpdated] is a timestamp. *)
Definition toNumberPlain (v : value) : option Z :=
  match v with
  | VNum n => Some n
  | VBool true => Some 1
  | VBool false => Some 0
  | VNull => Some 0
  | _ => None
  end.

(** Stored presets used in examples: the first does not parse, the second
    was saved after the third. *)
Definition exampleTable : list (string * value) :=
  [("older", VObj [("filters", VObj []); ("lastUpdated", VNum 1700)]);
   ("newer", VObj [("filters", VObj []); ("lastUpdated", VNum 1800)])].

Definition examplePresets : list obj :=
  [ [("presetId", VNum 1); ("data", VStr "garbled")];
    [("presetId", VNum 2); ("data", VStr "newer")];
    [("presetId", VNum 3); ("data", VStr "older")] ].

End UsePresets.

(* ================================================================= *)
(** ** The table query hook ([useTableQuery]) *)

Module UseTableQuery.

Import Functions Normalize.

(** [FetchDataParams] *)
Module Params.
Record Pagination : Type := { page : Z; pageSize : Z }.
Record Sorter : Type := { orderColumn : value; orderDir : Z }.
Record FetchDataParams : Type := {
  filters : obj;
  pagination : Pagination;
  sorter : Sorter
}.
End Params.

(** [TableQueryOptions]; a field the caller may leave out is an [option],
    and the destructuring defaults are applied where the field is read. *)
Record TableQueryOptions : Type := {
  fetchData : Params.FetchDataParams -> Settled value;
  initialData : option value;
  initialColumns : list obj;
  initialFilters : option obj;
  cacheKey : option string;          (* [None]: [undefined] or [null] *)
  initialPage : option Z;
  initialPageSize : option Z;
  initialSorter : option value;
  defaultStale : option Z            (* [staleTime], in minutes *)
}.

(** The [useState] cells of the hook. *)
Record State : Type := {
  isCacheKeyUndefined : bool;
  columns : list obj;
  current : Z;
  pageSize : Z;
  submittedFilters : obj;
  sorter : value;
  staleTime : string;
  isRetrying : bool
}.

(** [getTimeWindowKey(intervalMinutes = 5, prefix = "")], at the clock value
    [now] (milliseconds since the epoch).  A zero interval divides by zero,
    which JavaScript answers with an infinity or NaN. *)
Definition getTimeWindowKey (intervalMinutes : option Z) (prefix : string)
    (now : Z) : string :=
  let intervalMinutes :=
    match intervalMinutes with Some m => m | None => 5 end in
  let intervalMs := intervalMinutes * 60 * 1000 in
  let intervals :=
    if intervalMs =? 0 then
      if now =? 0 then "NaN" else if 0 <? now then "Infinity" else "-Infinity"
    else NilZero.string_of_int (Z.to_int (now / intervalMs)) in
  prefix ++ intervals.

(** [initialColumns.map((col, index) => ({ ...col, order: ... }))] *)
Fixpoint withOrder (index : Z) (cols : list obj) : list obj :=
  match cols with
  | [] => []
  | col :: rest =>
      obj_set col "order"
        (match (VObj col)?."order" with
         | VUndefined => VNum index
         | order => order
         end)
      :: withOrder (index + 1) rest
  end.

Definition columnsWithOrder (opts : TableQueryOptions) : list obj :=
  match initialColumns opts with
  | [] => []
  | cols => withOrder 0 cols
  end.

(** The state of the first render, at clock value [now]. *)
Definition initialState (opts : TableQueryOptions) (now : Z) : State :=
  {| isCacheKeyUndefined := false;
     columns := columnsWithOrder opts;
     current := match initialPage opts with Some p => p | None => 1 end;
     pageSize := match initialPageSize opts with Some p => p | None => 10 end;
     submittedFilters :=
       pruneNullOrUndefinedFields
         (match initialFilters opts with Some f => f | None => [] end);
     sorter := match initialSorter opts with Some s => s | None => VObj [] end;
     staleTime := getTimeWindowKey (defaultStale opts) "filters_" now;
     isRetrying := false |}.

(** [submitFilters(newFilters)], at clock value [now]. *)
Definition submitFilters (opts : TableQueryOptions) (newFilters : obj)
    (now : Z) (st : State) : State :=
  let processedFilters := pruneNullOrUndefinedFields newFilters in
  {| isCacheKeyUndefined := false;
     columns := columns st;
     current := 1;
     pageSize := pageSize st;
     submittedFilters := processedFilters;
     sorter := sorter st;
     staleTime := getTimeWindowKey (defaultStale opts) "filters_" now;
     isRetrying := false |}.

(** The [sorter] argument both fetches build from the sorter state. *)
Definition sorterParam (s : value) : Params.Sorter :=
  {| Params.orderColumn := or_else s?."columnKey" s?."field";
     Params.orderDir :=
       if truthy s?."order"
       then (if strictEq s?."order" (VStr "ascend") then 1 else -1)
       else -1 |}.

(** The argument of [fetchData] in the SWR fetcher. *)
Definition fetchParams (st : State) : Params.FetchDataParams :=
  {| Params.filters := submittedFilters st;
     Params.pagination :=
       {| Params.page := current st; Params.pageSize := pageSize st |};
     Params.sorter := sorterParam (sorter st) |}.

(** The argument of [fetchData] in [exportFn]. *)
Definition exportParams (st : State) : Params.FetchDataParams :=
  {| Params.filters := submittedFilters st;
     Params.pagination := {| Params.page := 1; Params.pageSize := 0 |};
     Params.sorter := sorterParam (sorter st) |}.

Definition exportFn (opts : TableQueryOptions) (st : State) : Settled value :=
  match fetchData opts (exportParams st) with
  | Fulfilled rawData => Fulfilled (extractDataFromResponse rawData)
  | Rejected err => Rejected err
  end.

(** [dataSource], from what SWR holds for the key ([VUndefined]: nothing). *)
Definition dataSource (opts : TableQueryOptions) (data : value) : value :=
  extractDataFromResponse
    (data ?? match initialData opts with Some d => d | None => VObj [] end).

Section WithStringify.

Variable JSON_stringify : value -> string.

Definition cacheKeyValue (opts : TableQueryOptions) : value :=
  match cacheKey opts with
  | Some k => VStr k
  | None => VUndefined
  end.

(** The key handed to [useSWR]; [None] is [undefined], on which SWR does not
    fetch. *)
Definition swrKey (opts : TableQueryOptions) (st : State) : option value :=
  if isCacheKeyUndefined st then None
  else Some (VArr [ cacheKeyValue opts;
                    VNum (current st);
                    VNum (pageSize st);
                    VStr (JSON_stringify (VObj (submittedFilters st)));
                    VStr (JSON_stringify (sorter st));
                    VStr (staleTime st) ]).

End WithStringify.

(** The SWR cache: keys with the data held for them.  A key that is not
    listed holds nothing ([undefined]). *)
Definition Cache : Type := list (value * value).

(** Two keys name one cache entry when SWR serialises them alike.  On
    strings, numbers and arrays of them, the keys the hooks of this
    repository use, that is equality of contents. *)
Fixpoint sameKey (a b : value) : bool :=
  match a, b with
  | VUndefined, VUndefined => true
  | VNull, VNull => true
  | VBool x, VBool y => Bool.eqb x y
  | VNum x, VNum y => x =? y
  | VStr x, VStr y => String.eqb x y
  | VArr xs, VArr ys =>
      (fix all2 (xs ys : list value) {struct xs} : bool :=
         match xs, ys with
         | [], [] => true
         | x :: xs', y :: ys' => (sameKey x y && all2 xs' ys')%bool
         | _, _ => false
         end) xs ys
  | VObj xs, VObj ys =>
      (fix all2 (xs ys : list (string * value)) {struct xs} : bool :=
         match xs, ys with
         | [], [] => true
         | (k, x) :: xs', (k', y) :: ys' =>
             (String.eqb k k' && sameKey x y && all2 xs' ys')%bool
         | _, _ => false
         end) xs ys
  | _, _ => false
  end.

(** What [useSWR] does with the answer of the fetcher: the data is held
    under the key of the request. *)
Fixpoint store (key data : value) (c : Cache) : Cache :=
  match c with
  | [] => [(key, data)]
  | (k, d) :: rest =>
      if sameKey k key then (k, data) :: rest
      else (k, d) :: store key data rest
  end.

(** The key filter of [clearAllRelatedCache]. *)
Definition matchesCacheKey (opts : TableQueryOptions) (key : value) : bool :=
  match cacheKey opts with
  | None => false                                  (* Skip if no cacheKey *)
  | Some ck =>
      if negb (truthy (VStr ck)) then false        (* Skip if no cacheKey *)
      else
        match key with
        | VStr s => startsWith s ck                (* For string keys *)
        | VArr (VStr s :: _) => includes s ck      (* For array keys *)
        | _ => false
        end
  end.

(** SWR's [mutate(filter, data, { revalidate: false })]: every key the
    filter accepts gets [data]; nothing is fetched. *)
Definition mutate (filter : value -> bool) (data : value) (c : Cache) : Cache :=
  map (fun entry => if filter (fst entry) then (fst entry, data) else entry) c.

Definition clearAllRelatedCache (opts : TableQueryOptions) (c : Cache) : Cache :=
  mutate (matchesCacheKey opts) VUndefined c.

(** What [onErrorRetry] leaves behind for the event loop. *)
Inductive Scheduled : Type :=
| Nothing
| RevalidateAfter (delayMs : Z) (retryCount : Z).

Definition onErrorRetry (opts : TableQueryOptions) (retryCount : Z)
    (st : State) (c : Cache) : State * Cache * Scheduled :=
  if 2 <=? retryCount then
    (* Retry failed, clearing cache and resetting filters *)
    ({| isCacheKeyUndefined := true;
        columns := columns st;
        current := current st;
        pageSize := pageSize st;
        submittedFilters := submittedFilters st;
        sorter := sorter st;
        staleTime := staleTime st;
        isRetrying := false |},
     clearAllRelatedCache opts c,
     Nothing)
  else
    ({| isCacheKeyUndefined := isCacheKeyUndefined st;
        columns := columns st;
        current := current st;
        pageSize := pageSize st;
        submittedFilters := submittedFilters st;
        sorter := sorter st;
        staleTime := staleTime st;
        isRetrying := true |},
     c,
     RevalidateAfter 3000 retryCount).

(** [onSuccess] *)
Definition onSuccess (st : State) : State :=
  {| isCacheKeyUndefined := isCacheKeyUndefined st;
     columns := columns st;
     current := current st;
     pageSize := pageSize st;
     submittedFilters := submittedFilters st;
     sorter := sorter st;
     staleTime := staleTime st;
     isRetrying := false |}.

(** A run of consecutive failed requests, as SWR drives it: a request made
    with options [{ retryCount: c }] that fails calls [onErrorRetry] with
    [retryCount = c + 1] (the first request has no options, [c = 0]); the
    scheduled [revalidate({ retryCount })] is the next request.  The result
    lists the delays of the retries that were scheduled. *)
Fixpoint failedRequests (opts : TableQueryOptions) (n : nat) (c : Z)
    (st : State) (cache : Cache) : State * Cache * list Z :=
  match n with
  | O => (st, cache, [])
  | S n' =>
      match onErrorRetry opts (c + 1) st cache with
      | (st', cache', Nothing) => (st', cache', [])
      | (st', cache', RevalidateAfter delay retryCount) =>
          let '(st'', cache'', delays) :=
            failedRequests opts n' retryCount st' cache' in
          (st'', cache'', delay :: delays)
      end
  end.

Definition setColumns (cols : list obj) (st : State) : State :=
  {| isCacheKeyUndefined := isCacheKeyUndefined st;
     columns := cols;
     current := current st;
     pageSize := pageSize st;
     submittedFilters := submittedFilters st;
     sorter := sorter st;
     staleTime := staleTime st;
     isRetrying := isRetrying st |}.

(** [updateColumnVisibility(key, hidden, order?)] *)
Definition updateColumnVisibility (key : string) (hidden : bool)
    (order : option Z) (st : State) : State :=
  setColumns
    (map (fun col =>
            if strictEq (VObj col)?."dataIndex" (VStr key) then
              match order with
              | Some o =>
                  obj_set (obj_set col "hidden" (VBool hidden)) "order" (VNum o)
              | None => obj_set col "hidden" (VBool hidden)
              end
            else col)
         (columns st))
    st.

(** [resetColumnVisibility()] *)
Definition resetColumnVisibility (opts : TableQueryOptions) (st : State) : State :=
  setColumns (columnsWithOrder opts) st.

(** [handlePaginationChange(page, size)] *)
Definition handlePaginationChange (page size : Z) (st : State) : State :=
  {| isCacheKeyUndefined := isCacheKeyUndefined st;
     columns := columns st;
     current := page;
     pageSize := size;
     submittedFilters := submittedFilters st;
     sorter := sorter st;
     staleTime := staleTime st;
     isRetrying := isRetrying st |}.

(** [handleTableChange(pagination, filters, sorter)].  With a multi-sort
    array the first entry is used; reading [order] off a missing entry throws
    after the two pagination cells were set, which leaves the sorter alone. *)
Definition handleTableChange (pagination : Params.Pagination)
    (newSorter : value) (st : State) : State :=
  let activeSorter :=
    match newSorter with
    | VArr items => nth 0 items VUndefined
    | _ => newSorter
    end in
  {| isCacheKeyUndefined := isCacheKeyUndefined st;
     columns := columns st;
     current := Params.page pagination;
     pageSize := Params.pageSize pagination;
     submittedFilters := submittedFilters st;
     sorter :=
       if truthy newSorter then
         if nullish activeSorter then sorter st
         else if truthy activeSorter?."order" then activeSorter
         else VObj []
       else sorter st;
     staleTime := staleTime st;
     isRetrying := isRetrying st |}.

(** What can happen to a mounted hook.  [FetchSucceeded key data]: the
    request [useSWR] made under [key], the key of the current render, was
    answered with [data]; [useSWR] holds the answer under that key and calls
    [onSuccess].  [FetchFailed retryCount]: the request failed and [useSWR]
    calls [onErrorRetry] with that count. *)
Inductive Event : Type :=
| SubmitFilters (newFilters : obj) (now : Z)
| TableChange (pagination : Params.Pagination) (newSorter : value)
| PaginationChange (page size : Z)
| UpdateColumnVisibility (key : string) (hidden : bool) (order : option Z)
| ResetColumnVisibility
| FetchSucceeded (key data : value)
| FetchFailed (retryCount : Z)
| ClearCache.

Definition step (opts : TableQueryOptions) (e : Event)
    (w : State * Cache) : State * Cache :=
  let (st, c) := w in
  match e with
  | SubmitFilters newFilters now => (submitFilters opts newFilters now st, c)
  | TableChange pagination newSorter =>
      (handleTableChange pagination newSorter st, c)
  | PaginationChange page size => (handlePaginationChange page size st, c)
  | UpdateColumnVisibility key hidden order =>
      (updateColumnVisibility key hidden order st, c)
  | ResetColumnVisibility => (resetColumnVisibility opts st, c)
  | FetchSucceeded key data => (onSuccess st, store key data c)
  | FetchFailed retryCount =>
      let '(st', c', _) := onErrorRetry opts retryCount st c in (st', c')
  | ClearCache => (st, clearAllRelatedCache opts c)
  end.

Definition run (opts : TableQueryOptions) (events : list Event)
    (w : State * Cache) : State * Cache :=
  fold_left (fun w e => step opts e w) events w.

Definition isSubmitFilters (e : Event) : bool :=
  match e with
  | SubmitFilters _ _ => true
  | _ => false
  end.

(** A cache key that starts with the hook's [cacheKey]: a string key with
    that prefix, or an array key whose first element is such a string. *)
Definition keyPrefixedBy (opts : TableQueryOptions) (key : value) : bool :=
  match cacheKey opts, key with
  | Some ck, VStr s => startsWith s ck
  | Some ck, VArr (VStr s :: _) => startsWith s ck
  | _, _ => false
  end.

(** Options used in examples: a backend that is down, and the given
    [cacheKey]. *)
Definition exampleOptions (ck : option string) : TableQueryOptions :=
  {| fetchData := fun _ => Rejected (VStr "Network Error");
     initialData := None;
     initialColumns := [];
     initialFilters := None;
     cacheKey := ck;
     initialPage := None;
     initialPageSize := None;
     initialSorter := None;
     defaultStale := None |}.

(** A cache with one entry of the hook and two of other hooks. *)
Definition exampleCache : Cache :=
  [ (VArr [VStr "users"; VNum 1; VNum 10; VStr "{}"; VStr "{}";
           VStr "filters_0"], VObj [("mainResult", VArr [])]);
    (VStr "users-count", VNum 42);
    (VStr "presets-1", VArr []) ].

End UseTableQuery.

(* ================================================================= *)
(** ** [src/utils/functions.ts]: [createNullFilters] *)

Module NullFilters.

(** The value [createNullFilters] stores under a key: the null filters of a
    nested object, [null] for an array and for everything else.  (An array
    and an object are truthy, so the two guards [obj[key] && ...] only
    select on the kind of the value.) *)
Fixpoint nullFilter (v : value) : value :=
  match v with
  | VObj nested =>
      VObj (fold_left
              (fun acc kv => obj_set acc (fst kv) (nullFilter (snd kv)))
              nested [])
  | _ => VNull
  end.

(** [Object.keys(obj).reduce((acc, key) => ({ ...acc, [key]: ... }), {})];
    an object has each key once, so walking the keys and reading [obj[key]]
    is walking the properties. *)
Definition createNullFilters (o : obj) : obj :=
  fold_left (fun acc kv => obj_set acc (fst kv) (nullFilter (snd kv))) o [].

(** Every leaf is [null]: the value is [null], or an object all of whose
    properties are such values. *)
Fixpoint allNull (v : value) : bool :=
  match v with
  | VNull => true
  | VObj fields => forallb (fun kv => allNull (snd kv)) fields
  | _ => false
  end.

(** No key occurs twice. *)
Fixpoint uniqueKeys (keys : list string) : bool :=
  match keys with
  | [] => true
  | k :: rest => (negb (existsb (String.eqb k) rest) && uniqueKeys rest)%bool
  end.

(** An object as plain assignments build it: in every object reached
    through objects, each key occurs once and none is ["__proto__"]. *)
Fixpoint wellFormed (v : value) : bool :=
  match v with
  | VObj fields =>
      (uniqueKeys (map fst fields)
       && negb (existsb (String.eqb "__proto__") (map fst fields))
       && forallb (fun kv => wellFormed (snd kv)) fields)%bool
  | _ => true
  end.


End NullFilters.

(* ================================================================= *)
(** ** The table query hook: the columns handed to the table *)

Module Columns.

(** [a.order !== undefined ? a.order : 999] *)
Definition orderOr999 (col : obj) : value :=
  match (VObj col)?."order" with
  | VUndefined => VNum 999
  | order => order
  end.

Section WithToNumber.

(** ToNumber; [None] for NaN. *)
Variable ToNumber : value -> option Z.

(** The comparator of [sortedColumns]: [orderA - orderB]. *)
Definition byOrder (a b : obj) : option Z :=
  UsePresets.minus ToNumber (orderOr999 a) (orderOr999 b).

(** [sortedColumns()], the [columns] of the hook's result:
    [[...columns].sort(...)]. *)
Definition sortedColumns (st : UseTableQuery.State) : list obj :=
  UsePresets.sort byOrder (UseTableQuery.columns st).

End WithToNumber.

End Columns.

(* ================================================================= *)
(** ** The debounce hook ([useDebouncedCallback]) *)

Module UseDebouncedCallback.

Section Debounced.

(** The arguments [func] takes. *)
Variable Args : Type.
(** [wait], in milliseconds. *)
Variable wait : Z.

(** A timer the browser holds: the handle [setTimeout] returned, the
    instant from which it may run, and the arguments its [later] closes
    over. *)
Record Timer : Type := { handle : nat; due : Z; args : Args }.

Record Env : Type := {
  timeout : option nat;           (* [timeout.current]; [None] is [null] *)
  pending : list Timer;           (* the timers the browser holds *)
  nextHandle : nat;               (* the handle the next [setTimeout] returns *)
  invocations : list (Z * Args)   (* the calls of [func]: instant, arguments *)
}.

(** [clearTimeout(h)] *)
Definition clearTimeout (h : nat) (timers : list Timer) : list Timer :=
  filter (fun t => negb (Nat.eqb (handle t) h)) timers.

(** [if (timeout.current !== null) clearTimeout(timeout.current)] *)
Definition clearCurrent (e : Env) : list Timer :=
  match timeout e with
  | Some h => clearTimeout h (pending e)
  | None => pending e
  end.

(** The debounced callback, called at [now] with [a]. *)
Definition debounced (now : Z) (a : Args) (e : Env) : Env :=
  {| timeout := Some (nextHandle e);
     pending :=
       clearCurrent e
       ++ [{| handle := nextHandle e; due := now + wait; args := a |}];
     nextHandle := S (nextHandle e);
     invocations := invocations e |}.

(** [later], which the browser runs at [now] for the timer [t] it has taken
    off its list. *)
Definition later (now : Z) (t : Timer) (e : Env) : Env :=
  {| timeout := timeout e;
     pending := clearCurrent e;
     nextHandle := nextHandle e;
     invocations := invocations e ++ [(now, args t)] |}.

(** The first pending timer that is due at [now], and the others. *)
Fixpoint takeDue (now : Z) (timers : list Timer)
    : option (Timer * list Timer) :=
  match timers with
  | [] => None
  | t :: rest =>
      if due t <=? now then Some (t, rest)
      else match takeDue now rest with
           | Some (t', rest') => Some (t', t :: rest')
           | None => None
           end
  end.

(** The browser at [now]: it runs one timer that is due, if there is one. *)
Definition fire (now : Z) (e : Env) : Env :=
  match takeDue now (pending e) with
  | Some (t, rest) =>
      later now t
        {| timeout := timeout e;
           pending := rest;
           nextHandle := nextHandle e;
           invocations := invocations e |}
  | None => e
  end.

Inductive Event : Type :=
| Call (now : Z) (a : Args)
| Fire (now : Z).

Definition step (ev : Event) (e : Env) : Env :=
  match ev with
  | Call now a => debounced now a e
  | Fire now => fire now e
  end.

Definition run (events : list Event) (e : Env) : Env :=
  fold_left (fun e ev => step ev e) events e.

(** The hook after its first render: the ref holds [null]. *)
Definition mounted : Env :=
  {| timeout := None; pending := []; nextHandle := 0; invocations := [] |}.

(** At most one timer is pending, and the ref names it. *)
Definition oneTimer (e : Env) : Prop :=
  pending e = []
  \/ exists t, pending e = [t] /\ timeout e = Some (handle t).

(** The invocation [(instant, arguments)] answers a call among [events]
    that was made with these arguments at least [wait] earlier. *)
Definition answersCall (events : list Event) (inv : Z * Args) : Prop :=
  exists called, In (Call called (snd inv)) events /\ called + wait <= fst inv.

End Debounced.

Arguments handle {Args} t.
Arguments due {Args} t.
Arguments args {Args} t.
Arguments timeout {Args} e.
Arguments pending {Args} e.
Arguments nextHandle {Args} e.
Arguments invocations {Args} e.
Arguments Call {Args} now a.
Arguments Fire {Args} now.
Arguments mounted {Args}.
Arguments run {Args} wait events e.
Arguments step {Args} wait ev e.
Arguments fire {Args} now e.
Arguments debounced {Args} wait now a e.
Arguments oneTimer {Args} e.
Arguments answersCall {Args} wait events inv.

End UseDebouncedCallback.

(* ================================================================= *)
(** ** The page component ([PageBuilder]): what it hands to the hooks *)

Module PageBuilder.

(** What the wrapped [fetchData] answers until the page is initialised:
    [{ mainResult: [], mainResultCount: 0 }]. *)
Definition notInitialized : value :=
  VObj [("mainResult", VArr []); ("mainResultCount", VNum 0)].

(** The [fetchData] handed to [useTableQuery]. *)
Definition fetchData (isInitialized : bool)
    (originalFetchData : UseTableQuery.Params.FetchDataParams -> Settled value)
    (params : UseTableQuery.Params.FetchDataParams) : Settled value :=
  if negb isInitialized then
    (* Don't fetch data until we're initialized *)
    Fulfilled notInitialized
  else originalFetchData params.

(** The options handed to [useTableQuery], for columns given as a list:
    [{ ...tableQueryOptions, columns, fetchData, initialFilters,
       cacheKey: isInitialized ? cacheKey : undefined }]. *)
Definition queryOptions (isInitialized : bool)
    (tableQueryOptions : UseTableQuery.TableQueryOptions)
    : UseTableQuery.TableQueryOptions :=
  {| UseTableQuery.fetchData :=
       fetchData isInitialized (UseTableQuery.fetchData tableQueryOptions);
     UseTableQuery.initialData := UseTableQuery.initialData tableQueryOptions;
     UseTableQuery.initialColumns :=
       UseTableQuery.initialColumns tableQueryOptions;
     UseTableQuery.initialFilters :=
       Some (match UseTableQuery.initialFilters tableQueryOptions with
             | Some f => f
             | None => []
             end);
     UseTableQuery.cacheKey :=
       if isInitialized then UseTableQuery.cacheKey tableQueryOptions
       else None;
     UseTableQuery.initialPage := UseTableQuery.initialPage tableQueryOptions;
     UseTableQuery.initialPageSize :=
       UseTableQuery.initialPageSize tableQueryOptions;
     UseTableQuery.initialSorter :=
       UseTableQuery.initialSorter tableQueryOptions;
     UseTableQuery.defaultStale :=
       UseTableQuery.defaultStale tableQueryOptions |}.

(** [isFetching || (presetsEnabled && isPresetsLoading) || !isInitialized] *)
Definition isLoading (isFetching presetsEnabled isPresetsLoading
                        isInitialized : bool) : bool :=
  (isFetching || (presetsEnabled && isPresetsLoading)
   || negb isInitialized)%bool.

(** The columns of the render context when [columns] is a function that has
    answered [newColumns]: the visibility of the managed columns is applied
    to them. *)
Definition applyVisibility (managedColumns newColumns : list obj) : list obj :=
  map (fun newCol =>
         match find (fun mc =>
                       (strictEq (VObj mc)?."key" (VObj newCol)?."key"
                        || strictEq (VObj mc)?."dataIndex"
                             (VObj newCol)?."dataIndex")%bool)
                    managedColumns with
         | Some managedCol =>
             obj_set newCol "hidden" (VObj managedCol)?."hidden"
         | None => newCol
         end)
      newColumns.

(** What the page does to the form. *)
Inductive FormAction : Type :=
| ResetFields
| SetFieldsValue (values : value).

(** The state the initial-load effect reads and writes. *)
Record Page : Type := {
  isInitialized : bool;
  initialLoadDone : bool;               (* [initialLoadDoneRef.current] *)
  query : UseTableQuery.State;
  formActions : list FormAction
}.

Section InitialLoad.

(** The properties lodash's [transform] walks on a value that is not a plain
    object (the indices of an array or of a string; none for a number or a
    boolean). *)
Variable ownProperties : value -> obj.

Definition propertiesOf (v : value) : obj :=
  match v with
  | VObj o => o
  | _ => ownProperties v
  end.

(** The body of the effect that handles the initial preset loading, run at
    [now] with what [usePresets] has returned: [presetsEnabled],
    [isPresetsLoading], [presets] ([None]: [undefined]) and
    [defaultPreset]. *)
Definition initialLoad (opts : UseTableQuery.TableQueryOptions)
    (initialFilters : obj) (presetsEnabled isPresetsLoading : bool)
    (presets : option (list obj)) (defaultPreset : option obj) (now : Z)
    (pg : Page) : Page :=
  if initialLoadDone pg then pg
  else if negb presetsEnabled then
    {| isInitialized := true;
       initialLoadDone := true;
       query :=
         UseTableQuery.submitFilters opts initialFilters now (query pg);
       formActions :=
         formActions pg
         ++ [ResetFields; SetFieldsValue (VObj initialFilters)] |}
  else if (isPresetsLoading
           || match presets with None => true | Some _ => false end)%bool
  then pg
  else
    let filtersToUse :=
      or_else
        match defaultPreset with
        | Some preset => (VObj preset)?."data"?."filters"
        | None => VUndefined
        end
        (VObj initialFilters) in
    {| isInitialized := true;
       initialLoadDone := true;
       query :=
         UseTableQuery.submitFilters opts (propertiesOf filtersToUse) now
           (query pg);
       formActions :=
         formActions pg
         ++ [SetFieldsValue
               (VObj (NullFilters.createNullFilters initialFilters));
             SetFieldsValue filtersToUse] |}.

Variable JSON_parse : value -> option value.
Variable ToNumber : value -> option Z.

(** The effect, fed with the result of [usePresets] for the preset kind and
    the SWR state of the presets request. *)
Definition initialLoadWithPresets (opts : UseTableQuery.TableQueryOptions)
    (initialFilters : obj) (presetKind : option Z)
    (swr : UsePresets.SwrResult) (now : Z) (pg : Page) : Page :=
  let result := UsePresets.usePresets JSON_parse ToNumber presetKind swr in
  initialLoad opts initialFilters
    match UsePresets.member "presetsEnabled" result with
    | Some (UsePresets.MFlag b) => b
    | _ => false
    end
    match UsePresets.member "isLoading" result with
    | Some (UsePresets.MFlag b) => b
    | _ => false
    end
    match UsePresets.member "presets" result with
    | Some (UsePresets.MList l) => Some l
    | _ => None
    end
    match UsePresets.member "defaultPreset" result with
    | Some (UsePresets.MPreset p) => p
    | _ => None
    end
    now pg.

End InitialLoad.

(** The page before the effect has run. *)
Definition firstRender (opts : UseTableQuery.TableQueryOptions) (now : Z)
    : Page :=
  {| isInitialized := false;
     initialLoadDone := false;
     query := UseTableQuery.initialState (queryOptions false opts) now;
     formActions := [] |}.

End PageBuilder.

(* ================================================================= *)
(** ** The table query hook: [pagination.total] *)

Module Pagination.

(** The paths the [??] chain of [pagination.total] probes, in its order. *)
Definition totalPaths (data : value) : list value :=
  [ data?."mainResultCount";
    data?."MainResultCount";
    data?."body"?."mainResultCount";
    data?."response"?."mainResultCount";
    data?."total_rows";
    data?."totalCount" ].

End Pagination.

(* ================================================================= *)
(** * Properties *)

(** ** Nullish coalescing over a list of candidates *)

Section Coalesce.

Lemma coalesce_chain_skip (before rest : list value) (dflt : value) :
  forallb nullish before = true ->
  fold_right coalesce dflt (before ++ rest)%list
  = fold_right coalesce dflt rest.
Proof.
  induction before as [|v before IH]; simpl; intros Hn; [reflexivity|].
  apply andb_prop in Hn. destruct Hn as [Hv Hb].
  unfold coalesce at 1. rewrite Hv. auto.
Qed.

Lemma coalesce_chain_hit (before after : list value) (hit dflt : value) :
  forallb nullish before = true ->
  nullish hit = false ->
  fold_right coalesce dflt (before ++ hit :: after)%list = hit.
Proof.
  intros Hb Hh. rewrite (coalesce_chain_skip before (hit :: after) dflt Hb).
  simpl. unfold coalesce. now rewrite Hh.
Qed.

Lemma coalesce_chain_none (candidates : list value) (dflt : value) :
  forallb nullish candidates = true ->
  fold_right coalesce dflt candidates = dflt.
Proof.
  intros H. rewrite <- (app_nil_r candidates).
  now rewrite (coalesce_chain_skip candidates [] dflt H).
Qed.

End Coalesce.

Lemma extractDataFromResponse_chain (data : value) :
  Normalize.extractDataFromResponse data
  = fold_right coalesce (VArr []) (Normalize.envelope_paths data).
Proof. reflexivity. Qed.

(** C3.  Response normalisation.  For every array [xs] the three envelopes
    [{response: {mainResult: xs}}], [{mainResult: xs}] and [{data: xs}] are
    all normalised to [xs].  The first envelope path, in the order of the
    source, that holds a value other than [null]/[undefined] is the result,
    whatever the later paths hold.  When no path holds such a value, and in
    particular for [null] and [undefined], the result is the empty array. *)
Theorem extractDataFromResponse_normalizes :
  (forall xs : list value,
      Normalize.extractDataFromResponse
        (VObj [("response", VObj [("mainResult", VArr xs)])]) = VArr xs
      /\ Normalize.extractDataFromResponse (VObj [("mainResult", VArr xs)])
         = VArr xs
      /\ Normalize.extractDataFromResponse (VObj [("data", VArr xs)])
         = VArr xs)
  /\ (forall (data hit : value) (before after : list value),
         Normalize.envelope_paths data = (before ++ hit :: after)%list ->
         forallb nullish before = true ->
         nullish hit = false ->
         Normalize.extractDataFromResponse data = hit)
  /\ (forall data : value,
         forallb nullish (Normalize.envelope_paths data) = true ->
         Normalize.extractDataFromResponse data = VArr [])
  /\ Normalize.extractDataFromResponse VNull = VArr []
  /\ Normalize.extractDataFromResponse VUndefined = VArr [].
Proof.
  split; [|split; [|split; [|split]]].
  - intros xs. repeat split; reflexivity.
  - intros data hit before after Hpaths Hb Hh.
    rewrite extractDataFromResponse_chain, Hpaths.
    now apply coalesce_chain_hit.
  - intros data Hall.
    rewrite extractDataFromResponse_chain.
    now apply coalesce_chain_none.
  - reflexivity.
  - reflexivity.
Qed.

(** An envelope that carries both [mainResult] and [data]: [mainResult] is
    probed first and wins; an envelope with none of the known properties
    yields the empty array. *)
Lemma extractDataFromResponse_normalizes_witness :
  Normalize.extractDataFromResponse
    (VObj [("data", VArr [VNum 7]); ("mainResult", VArr [VNum 1; VNum 2])])
  = VArr [VNum 1; VNum 2]
  /\ Normalize.extractDataFromResponse (VObj [("rows", VArr [VNum 1])])
     = VArr [].
Proof.
  split.
  - apply (proj1 (proj2 extractDataFromResponse_normalizes)
             _ _ [VUndefined; VUndefined]
             [VUndefined; VUndefined; VUndefined; VUndefined;
              VArr [VNum 7]; VUndefined]);
      reflexivity.
  - apply (proj1 (proj2 (proj2 extractDataFromResponse_normalizes))).
    reflexivity.
Defined.

(** ** Blank strings and [find] *)






Section Find.
Context {A : Type} (f : A -> bool).


End Find.






(** ** Objects *)

Lemma lookup_obj_set_same (o : obj) (k : string) (v : value) :
  lookup k (obj_set o k v) = Some v.
Proof.
  induction o as [|[k' v'] o IH]; simpl.
  - now rewrite String.eqb_refl.
  - destruct (String.eqb k k') eqn:E; simpl; rewrite E; auto.
Qed.

Lemma get_obj_set_same (o : obj) (k : string) (v : value) :
  (VObj (obj_set o k v))?.k = v.
Proof. simpl. now rewrite lookup_obj_set_same. Qed.

Lemma lookup_obj_set_other (o : obj) (k k' : string) (v : value) :
  String.eqb k' k = false ->
  lookup k' (obj_set o k v) = lookup k' o.
Proof.
  intros Hk. induction o as [|[k0 v0] o IH]; simpl.
  - now rewrite Hk.
  - destruct (String.eqb k k0) eqn:E; simpl.
    + apply String.eqb_eq in E. subst k0. now rewrite Hk.
    + now rewrite IH.
Qed.

(** ** The stable sort puts a maximal element first *)

Section SortHead.
Context {A : Type}.
Variable comparefn : A -> A -> option Z.
Variable key : A -> Z.
Variable P : A -> Prop.
Hypothesis comparefn_key :
  forall a b, P a -> P b ->
              UsePresets.sortCompare comparefn a b = key b - key a.




End SortHead.

(** ** Default preset selection *)

Section DefaultPreset.
Variable JSON_parse : value -> option value.
Variable ToNumber : value -> option Z.

Let valid := UsePresets.validPreset JSON_parse ToNumber.
Let lastUpdated := UsePresets.lastUpdated.
Let stamp (q : obj) : Z :=
  match ToNumber (lastUpdated q) with Some t => t | None => 0 end.

Lemma In_filterBoolean_map (q : obj) (presets : list obj) :
  In q (UsePresets.filterBoolean
          (map (UsePresets.parsePreset JSON_parse) presets))
  <-> exists p, In p presets /\ UsePresets.parsePreset JSON_parse p = Some q.
Proof.
  induction presets as [|p presets IH]; simpl.
  - split; [tauto|]. intros (p & [] & _).
  - destruct (UsePresets.parsePreset JSON_parse p) as [q'|] eqn:Hp; simpl.
    + rewrite IH. split.
      * intros [<-|(p' & Hin & Hq)]; [exists p; auto|exists p'; auto].
      * intros (p' & [<-|Hin] & Hq); [left; congruence|right; exists p'; auto].
    + rewrite IH. split.
      * intros (p' & Hin & Hq). exists p'; auto.
      * intros (p' & [<-|Hin] & Hq); [congruence|exists p'; auto].
Qed.

Lemma parsePreset_Some (p q : obj) :
  UsePresets.parsePreset JSON_parse p = Some q
  <-> exists d, JSON_parse (VObj p)?."data" = Some d
                /\ q = obj_set p "parsedData" d.
Proof.
  unfold UsePresets.parsePreset.
  destruct (JSON_parse (VObj p)?."data") as [d|].
  - split.
    + intros [= <-]. now exists d.
    + intros (d' & [= <-] & ->). reflexivity.
  - split; [discriminate|]. intros (d & Hd & _). discriminate.
Qed.

Lemma In_parsedPresets (q : obj) (presets : list obj) :
  In q (UsePresets.parsedPresets JSON_parse ToNumber presets)
  <-> exists p d t, In p presets /\ valid p d t
                    /\ q = obj_set p "parsedData" d.
Proof.
  unfold UsePresets.parsedPresets. rewrite filter_In, In_filterBoolean_map.
  split.
  - intros [(p & Hin & Hp) Hgt].
    apply parsePreset_Some in Hp. destruct Hp as (d & Hd & ->).
    unfold UsePresets.gtZero, UsePresets.lastUpdated in Hgt.
    rewrite get_obj_set_same in Hgt.
    destruct (ToNumber d?."lastUpdated") as [t|] eqn:Ht; [|discriminate].
    apply Z.ltb_lt in Hgt.
    exists p, d, t. repeat split; auto.
  - intros (p & d & t & Hin & (Hd & Ht & Hpos) & ->). split.
    + exists p. split; [exact Hin|]. apply parsePreset_Some. now exists d.
    + unfold UsePresets.gtZero, UsePresets.lastUpdated.
      rewrite get_obj_set_same, Ht. now apply Z.ltb_lt.
Qed.


Lemma byLastUpdatedDesc_stamp (a b : obj) :
  (exists t, ToNumber (lastUpdated a) = Some t) ->
  (exists t, ToNumber (lastUpdated b) = Some t) ->
  UsePresets.sortCompare (UsePresets.byLastUpdatedDesc ToNumber) a b
  = stamp b - stamp a.
Proof.
  intros [ta Ha] [tb Hb].
  unfold UsePresets.sortCompare, UsePresets.byLastUpdatedDesc,
    UsePresets.minus, stamp.
  fold lastUpdated. now rewrite Ha, Hb.
Qed.

End DefaultPreset.


(** ** The table query hook *)

(** C2.  After [submitFilters], whatever the filters, the clock and the
    state it is called in, the current page is 1; so it is at the end of
    every run of events that ends with a filter submission. *)
Theorem submitFilters_resets_page :
  forall (opts : UseTableQuery.TableQueryOptions) (newFilters : obj)
         (now : Z) (st : UseTableQuery.State),
    UseTableQuery.current (UseTableQuery.submitFilters opts newFilters now st)
    = 1
    /\ (forall (events : list UseTableQuery.Event) (c : UseTableQuery.Cache),
           UseTableQuery.current
             (fst (UseTableQuery.run opts
                     (events ++ [UseTableQuery.SubmitFilters newFilters now])%list
                     (st, c)))
           = 1).
Proof.
  intros opts newFilters now st. split; [reflexivity|].
  intros events c. unfold UseTableQuery.run.
  rewrite fold_left_app. cbn [fold_left].
  destruct (fold_left _ events (st, c)) as [st' c']. reflexivity.
Qed.

(** C10.  [submitFilters] leaves the page size, the sorter and the columns
    as they were; what it writes is the submitted filters (pruned), the
    current page, the stale window key and the two flags. *)
Theorem submitFilters_frame :
  forall (opts : UseTableQuery.TableQueryOptions) (newFilters : obj)
         (now : Z) (st : UseTableQuery.State),
    let st' := UseTableQuery.submitFilters opts newFilters now st in
    UseTableQuery.pageSize st' = UseTableQuery.pageSize st
    /\ UseTableQuery.sorter st' = UseTableQuery.sorter st
    /\ UseTableQuery.columns st' = UseTableQuery.columns st
    /\ st' = {| UseTableQuery.isCacheKeyUndefined := false;
                UseTableQuery.columns := UseTableQuery.columns st;
                UseTableQuery.current := 1;
                UseTableQuery.pageSize := UseTableQuery.pageSize st;
                UseTableQuery.submittedFilters :=
                  Functions.pruneNullOrUndefinedFields newFilters;
                UseTableQuery.sorter := UseTableQuery.sorter st;
                UseTableQuery.staleTime :=
                  UseTableQuery.getTimeWindowKey
                    (UseTableQuery.defaultStale opts) "filters_" now;
                UseTableQuery.isRetrying := false |}.
Proof. intros. repeat split. Qed.

(** C5.  [updateColumnVisibility] and [resetColumnVisibility] write the
    columns only: the suppression flag, the page, the page size, the
    submitted filters, the sorter and the stale window key keep their values.
    The key handed to SWR and the arguments of the fetcher are therefore the
    same before and after, so no request follows. *)
Theorem column_edits_keep_cache_key :
  forall (JSON_stringify : value -> string)
         (opts : UseTableQuery.TableQueryOptions)
         (key : string) (hidden : bool) (order : option Z)
         (st : UseTableQuery.State),
    let unchanged (st' : UseTableQuery.State) :=
      UseTableQuery.isCacheKeyUndefined st'
      = UseTableQuery.isCacheKeyUndefined st
      /\ UseTableQuery.current st' = UseTableQuery.current st
      /\ UseTableQuery.pageSize st' = UseTableQuery.pageSize st
      /\ UseTableQuery.submittedFilters st'
         = UseTableQuery.submittedFilters st
      /\ UseTableQuery.sorter st' = UseTableQuery.sorter st
      /\ UseTableQuery.staleTime st' = UseTableQuery.staleTime st
      /\ UseTableQuery.isRetrying st' = UseTableQuery.isRetrying st
      /\ UseTableQuery.swrKey JSON_stringify opts st'
         = UseTableQuery.swrKey JSON_stringify opts st
      /\ UseTableQuery.fetchParams st' = UseTableQuery.fetchParams st in
    unchanged (UseTableQuery.updateColumnVisibility key hidden order st)
    /\ unchanged (UseTableQuery.resetColumnVisibility opts st).
Proof. intros. split; repeat split. Qed.

(** C4.  [exportFn] calls [fetchData] with page 1 and page size 0, the
    submitted filters and the sorter argument of the regular fetch.  That
    argument is read from the sorter state: the column is its [columnKey],
    else its [field], and the direction is 1 for the order ["ascend"] and -1
    otherwise; once the table has been sorted by a column, the export asks
    for that column and direction.  The arguments do not depend on the
    current page or page size.  A fulfilled answer is returned through
    [extractDataFromResponse], the normalisation that [dataSource] uses; a
    rejection is passed on. *)
Theorem exportFn_requests_all_rows :
  forall (opts : UseTableQuery.TableQueryOptions) (st : UseTableQuery.State),
    let params := UseTableQuery.exportParams st in
    UseTableQuery.Params.page (UseTableQuery.Params.pagination params) = 1
    /\ UseTableQuery.Params.pageSize (UseTableQuery.Params.pagination params)
       = 0
    /\ UseTableQuery.Params.filters params = UseTableQuery.submittedFilters st
    /\ UseTableQuery.Params.sorter params
       = UseTableQuery.Params.sorter (UseTableQuery.fetchParams st)
    /\ UseTableQuery.Params.sorter params
       = {| UseTableQuery.Params.orderColumn :=
              or_else (UseTableQuery.sorter st)?."columnKey"
                      (UseTableQuery.sorter st)?."field";
            UseTableQuery.Params.orderDir :=
              if truthy (UseTableQuery.sorter st)?."order"
              then (if strictEq (UseTableQuery.sorter st)?."order"
                                (VStr "ascend")
                    then 1 else -1)
              else -1 |}
    /\ (forall (pagination : UseTableQuery.Params.Pagination)
               (column : string) (order : string),
           column <> EmptyString ->
           order <> EmptyString ->
           UseTableQuery.Params.sorter
             (UseTableQuery.exportParams
                (UseTableQuery.handleTableChange pagination
                   (VObj [("columnKey", VStr column); ("order", VStr order)])
                   st))
           = {| UseTableQuery.Params.orderColumn := VStr column;
                UseTableQuery.Params.orderDir :=
                  if String.eqb order "ascend" then 1 else -1 |})
    /\ (forall page size : Z,
           UseTableQuery.exportParams
             (UseTableQuery.handlePaginationChange page size st)
           = params)
    /\ UseTableQuery.exportFn opts st
       = match UseTableQuery.fetchData opts params with
         | Fulfilled rawData =>
             Fulfilled (Normalize.extractDataFromResponse rawData)
         | Rejected err => Rejected err
         end
    /\ (forall data : value,
           UseTableQuery.dataSource opts data
           = Normalize.extractDataFromResponse
               (data ?? match UseTableQuery.initialData opts with
                        | Some d => d
                        | None => VObj []
                        end)).
Proof.
  intros opts st params. subst params.
  do 5 (split; [reflexivity|]).
  split; [|repeat split].
  intros pagination column order Hcolumn Horder.
  destruct column as [|c column]; [now elim Hcolumn|].
  destruct order as [|o order]; [now elim Horder|].
  reflexivity.
Qed.

(** The table on page 3 is sorted by [name], descending: the export asks
    for that column in direction -1. *)
Lemma exportFn_requests_all_rows_witness :
  UseTableQuery.Params.sorter
    (UseTableQuery.exportParams
       (UseTableQuery.handleTableChange
          {| UseTableQuery.Params.page := 3;
             UseTableQuery.Params.pageSize := 20 |}
          (VObj [("columnKey", VStr "name"); ("order", VStr "descend")])
          (UseTableQuery.initialState (UseTableQuery.exampleOptions None) 0)))
  = {| UseTableQuery.Params.orderColumn := VStr "name";
       UseTableQuery.Params.orderDir := -1 |}.
Proof.
  apply (proj1 (proj2 (proj2 (proj2 (proj2 (proj2
           (exportFn_requests_all_rows (UseTableQuery.exampleOptions None)
              (UseTableQuery.initialState
                 (UseTableQuery.exampleOptions None) 0)))))))
           {| UseTableQuery.Params.page := 3;
              UseTableQuery.Params.pageSize := 20 |}
           "name" "descend");
    discriminate.
Defined.

(** ** Pruning *)

(** Induction on values that reaches into arrays and objects. *)
Lemma value_nested_ind (P : value -> Prop) :
  P VUndefined -> P VNull ->
  (forall b, P (VBool b)) -> (forall n, P (VNum n)) -> (forall s, P (VStr s)) ->
  (forall items, Forall P items -> P (VArr items)) ->
  (forall fields, Forall (fun kv => P (snd kv)) fields -> P (VObj fields)) ->
  forall v, P v.
Proof.
  intros Hu Hn Hb Hz Hs Ha Ho.
  fix IH 1. intros [ | | b | n | s | items | fields].
  - exact Hu.
  - exact Hn.
  - apply Hb.
  - apply Hz.
  - apply Hs.
  - apply Ha. induction items as [|x items IHitems]; constructor.
    + apply IH.
    + exact IHitems.
  - apply Ho. induction fields as [|[k x] fields IHfields]; constructor.
    + apply IH.
    + exact IHfields.
Qed.

Lemma pruned_obj_set (o : obj) (k : string) (v : value) :
  Functions.pruned (VObj o) = true ->
  Functions.isBlank v = false ->
  Functions.pruned v = true ->
  Functions.pruned (VObj (obj_set o k v)) = true.
Proof.
  intros Ho Hb Hv. induction o as [|[k' v'] o IH].
  - simpl. now rewrite Hb, Hv.
  - cbn [Functions.pruned forallb snd] in Ho.
    apply andb_prop in Ho. destruct Ho as [Hhead Ho].
    cbn [obj_set]. destruct (String.eqb k k').
    + cbn [Functions.pruned forallb snd]. rewrite Hb, Hv. exact Ho.
    + cbn [Functions.pruned forallb snd]. rewrite Hhead.
      exact (IH Ho).
Qed.

Lemma transform_pruned (o : obj) :
  Forall (fun kv =>
            forall (result : obj) (key : string),
              Functions.pruned (VObj result) = true ->
              Functions.pruned
                (VObj (Functions.recursiveTransform result (snd kv) key))
              = true) o ->
  forall acc,
    Functions.pruned (VObj acc) = true ->
    Functions.pruned
      (VObj (Functions.transform o Functions.recursiveTransform acc)) = true.
Proof.
  unfold Functions.transform.
  induction 1 as [|[k v] o Hkv _ IH]; intros acc Hacc; simpl.
  - exact Hacc.
  - apply IH. apply Hkv. exact Hacc.
Qed.

Lemma pruned_assign (o : obj) (k : string) (v : value) :
  Functions.pruned (VObj o) = true ->
  Functions.isBlank v = false ->
  Functions.pruned v = true ->
  Functions.pruned (VObj (Functions.assign o k v)) = true.
Proof.
  intros Ho Hb Hv. unfold Functions.assign.
  destruct (String.eqb k "__proto__"); [exact Ho|].
  now apply pruned_obj_set.
Qed.

Lemma recursiveTransform_pruned (v : value) (result : obj) (key : string) :
  Functions.pruned (VObj result) = true ->
  Functions.pruned (VObj (Functions.recursiveTransform result v key)) = true.
Proof.
  revert result key.
  induction v as [ | | b | n | s | items _ | fields IH]
    using value_nested_ind; intros result key Hres.
  - exact Hres.
  - exact Hres.
  - now apply pruned_assign.
  - now apply pruned_assign.
  - cbn [Functions.recursiveTransform nullish Functions.isEmptyString orb].
    destruct (String.eqb s "") eqn:Es; [exact Hres|].
    apply pruned_assign; auto. unfold Functions.isBlank. cbn. now rewrite Es.
  - now apply pruned_assign.
  - cbn [Functions.recursiveTransform].
    pose proof (transform_pruned fields IH [] eq_refl) as Hnested.
    destruct (Functions.transform fields Functions.recursiveTransform [])
      as [|kv objRes] eqn:E; cbn [Functions.isEmpty negb].
    + exact Hres.
    + apply pruned_assign; auto.
Qed.

Lemma pruneNullOrUndefinedFields_pruned (o : obj) :
  Functions.pruned (VObj (Functions.pruneNullOrUndefinedFields o)) = true.
Proof.
  unfold Functions.pruneNullOrUndefinedFields.
  apply transform_pruned; [|reflexivity].
  apply Forall_forall. intros kv _ result key.
  apply recursiveTransform_pruned.
Qed.



(** ** Retry policy and cache invalidation *)

Lemma prefix_includes (s p : string) :
  startsWith s p = true -> includes s p = true.
Proof.
  unfold startsWith. intros H. destruct s; cbn [includes]; rewrite H; reflexivity.
Qed.

Lemma keyPrefixedBy_matches (opts : UseTableQuery.TableQueryOptions)
    (ck : string) (key : value) :
  UseTableQuery.cacheKey opts = Some ck ->
  ck <> EmptyString ->
  UseTableQuery.keyPrefixedBy opts key = true ->
  UseTableQuery.matchesCacheKey opts key = true.
Proof.
  unfold UseTableQuery.keyPrefixedBy, UseTableQuery.matchesCacheKey.
  intros -> Hck H.
  destruct ck as [|a ck]; [congruence|]. cbn [truthy String.eqb negb].
  destruct key as [ | | | | s | [|[ | | | | s | | ] items] | ];
    try discriminate H; auto using prefix_includes.
Qed.

Lemma mutate_In (filter : value -> bool) (data key d : value)
    (c : UseTableQuery.Cache) :
  In (key, d) c ->
  filter key = true ->
  In (key, data) (UseTableQuery.mutate filter data c).
Proof.
  intros Hin Hf. unfold UseTableQuery.mutate.
  apply in_map_iff. exists (key, d). cbn [fst]. rewrite Hf. auto.
Qed.

Lemma mutate_none (data : value) (c : UseTableQuery.Cache) :
  UseTableQuery.mutate (fun _ => false) data c = c.
Proof.
  unfold UseTableQuery.mutate. induction c as [|e c IH]; simpl; congruence.
Qed.

Lemma step_keeps_suppression (opts : UseTableQuery.TableQueryOptions)
    (e : UseTableQuery.Event) (w : UseTableQuery.State * UseTableQuery.Cache) :
  UseTableQuery.isSubmitFilters e = false ->
  UseTableQuery.isCacheKeyUndefined (fst w) = true ->
  UseTableQuery.isCacheKeyUndefined (fst (UseTableQuery.step opts e w)) = true.
Proof.
  destruct w as [st c]. intros He H.
  destruct e; try discriminate He; cbn [UseTableQuery.step fst]; try exact H.
  unfold UseTableQuery.onErrorRetry.
  destruct (2 <=? retryCount); [reflexivity|exact H].
Qed.

Lemma run_keeps_suppression (opts : UseTableQuery.TableQueryOptions)
    (events : list UseTableQuery.Event)
    (w : UseTableQuery.State * UseTableQuery.Cache) :
  forallb (fun e => negb (UseTableQuery.isSubmitFilters e)) events = true ->
  UseTableQuery.isCacheKeyUndefined (fst w) = true ->
  UseTableQuery.isCacheKeyUndefined (fst (UseTableQuery.run opts events w))
  = true.
Proof.
  unfold UseTableQuery.run. revert w.
  induction events as [|e events IH]; intros w Hev H; simpl; [exact H|].
  simpl in Hev. apply andb_prop in Hev. destruct Hev as [He Hev].
  apply negb_true_iff in He.
  apply IH; [exact Hev|]. now apply step_keeps_suppression.
Qed.

(** C1, as stated, fails on the invalidation: with the empty string as
    [cacheKey] every string key has the prefix, yet the filter of
    [clearAllRelatedCache] skips a falsy [cacheKey], and after the retries
    are exhausted the entries still hold their data. *)
Lemma exhausted_retries_keep_cache_for_empty_cacheKey :
  ~ (forall (opts : UseTableQuery.TableQueryOptions)
            (st : UseTableQuery.State) (c : UseTableQuery.Cache)
            (key d : value),
        In (key, d) c ->
        UseTableQuery.keyPrefixedBy opts key = true ->
        In (key, VUndefined)
           (snd (fst (UseTableQuery.failedRequests opts 2 0 st c)))).
Proof.
  intros H.
  specialize (H (UseTableQuery.exampleOptions (Some ""))
                (UseTableQuery.initialState
                   (UseTableQuery.exampleOptions (Some "")) 0)
                UseTableQuery.exampleCache
                (VStr "users-count") (VNum 42)).
  cbn in H.
  destruct H as [H|[H|[H|[]]]]; try discriminate H; auto.
Qed.

(** C1, as the code has it.  [onErrorRetry] schedules a revalidation 3000 ms
    later while the [retryCount] SWR reports is below 2, and gives up once it
    has reached 2.  SWR counts from 1, so in a run of failed requests at most
    2 retries are scheduled (one, in fact), each after 3000 ms, and the
    second consecutive failure exhausts them.  Giving up clears the cache
    through [clearAllRelatedCache] and sets the suppression flag, which makes
    the SWR key [undefined].  When [cacheKey] is a non-empty string, clearing
    sets to [undefined] every entry whose key starts with it (a string key,
    or an array key by its first element); when [cacheKey] is absent or
    empty, clearing changes nothing.  The flag stays set, and the key
    [undefined], through every event other than [submitFilters];
    [submitFilters] restores a defined key. *)
Theorem retry_policy :
  forall (JSON_stringify : value -> string)
         (opts : UseTableQuery.TableQueryOptions)
         (st : UseTableQuery.State) (c : UseTableQuery.Cache),
    (forall retryCount : Z,
        retryCount < 2 ->
        let r := UseTableQuery.onErrorRetry opts retryCount st c in
        snd r = UseTableQuery.RevalidateAfter 3000 retryCount
        /\ snd (fst r) = c
        /\ UseTableQuery.isCacheKeyUndefined (fst (fst r))
           = UseTableQuery.isCacheKeyUndefined st)
    /\ (forall retryCount : Z,
           2 <= retryCount ->
           let r := UseTableQuery.onErrorRetry opts retryCount st c in
           snd r = UseTableQuery.Nothing
           /\ snd (fst r) = UseTableQuery.clearAllRelatedCache opts c
           /\ UseTableQuery.isCacheKeyUndefined (fst (fst r)) = true)
    /\ (forall n : nat,
           let delays := snd (UseTableQuery.failedRequests opts n 0 st c) in
           (length delays <= 2)%nat
           /\ length delays = Nat.min n 1
           /\ Forall (fun delay => delay = 3000) delays)
    /\ (forall n : nat,
           (2 <= n)%nat ->
           let r := UseTableQuery.failedRequests opts n 0 st c in
           UseTableQuery.isCacheKeyUndefined (fst (fst r)) = true
           /\ UseTableQuery.swrKey JSON_stringify opts (fst (fst r)) = None
           /\ snd (fst r) = UseTableQuery.clearAllRelatedCache opts c)
    /\ (forall (ck : string) (key d : value),
           UseTableQuery.cacheKey opts = Some ck ->
           ck <> EmptyString ->
           In (key, d) c ->
           UseTableQuery.keyPrefixedBy opts key = true ->
           In (key, VUndefined) (UseTableQuery.clearAllRelatedCache opts c))
    /\ (UseTableQuery.cacheKey opts = None
        \/ UseTableQuery.cacheKey opts = Some EmptyString ->
        UseTableQuery.clearAllRelatedCache opts c = c)
    /\ (forall events : list UseTableQuery.Event,
           forallb (fun e => negb (UseTableQuery.isSubmitFilters e)) events
           = true ->
           UseTableQuery.isCacheKeyUndefined st = true ->
           UseTableQuery.swrKey JSON_stringify opts
             (fst (UseTableQuery.run opts events (st, c))) = None)
    /\ (forall (newFilters : obj) (now : Z),
           UseTableQuery.swrKey JSON_stringify opts
             (UseTableQuery.submitFilters opts newFilters now st) <> None).
Proof.
  intros JSON_stringify opts st c.
  split; [|split; [|split; [|split; [|split; [|split; [|split]]]]]].
  - intros retryCount Hlt r. subst r. unfold UseTableQuery.onErrorRetry.
    destruct (2 <=? retryCount) eqn:E; [apply Z.leb_le in E; lia|].
    repeat split.
  - intros retryCount Hge r. subst r. unfold UseTableQuery.onErrorRetry.
    destruct (2 <=? retryCount) eqn:E; [|apply Z.leb_gt in E; lia].
    repeat split.
  - intros [|[|n]]; cbn; repeat split; auto.
  - intros [|[|n]] Hn; [lia|lia|]. cbn. repeat split.
  - intros ck key d Hck Hne Hin Hpre.
    unfold UseTableQuery.clearAllRelatedCache.
    apply mutate_In with (d := d); [exact Hin|].
    now apply keyPrefixedBy_matches with (ck := ck).
  - intros Hck. unfold UseTableQuery.clearAllRelatedCache.
    replace (UseTableQuery.matchesCacheKey opts) with (fun _ : value => false).
    + apply mutate_none.
    + unfold UseTableQuery.matchesCacheKey.
      destruct Hck as [-> | ->]; reflexivity.
  - intros events Hev Hsup. unfold UseTableQuery.swrKey.
    now rewrite (run_keeps_suppression opts events (st, c) Hev Hsup).
  - intros newFilters now. discriminate.
Qed.

(** The hook for the list of users, with the backend down: the first failure
    schedules one retry, the second gives up, clears the two entries under
    ["users"] and leaves the presets entry; paging afterwards does not bring
    the key back. *)
Lemma retry_policy_witness :
  snd (UseTableQuery.failedRequests
         (UseTableQuery.exampleOptions (Some "users")) 2 0
         (UseTableQuery.initialState
            (UseTableQuery.exampleOptions (Some "users")) 0)
         UseTableQuery.exampleCache)
  = [3000]
  /\ snd (fst (UseTableQuery.failedRequests
                 (UseTableQuery.exampleOptions (Some "users")) 2 0
                 (UseTableQuery.initialState
                    (UseTableQuery.exampleOptions (Some "users")) 0)
                 UseTableQuery.exampleCache))
     = [ (VArr [VStr "users"; VNum 1; VNum 10; VStr "{}"; VStr "{}";
                VStr "filters_0"], VUndefined);
         (VStr "users-count", VUndefined);
         (VStr "presets-1", VArr []) ]
  /\ In (VStr "users-count", VUndefined)
        (UseTableQuery.clearAllRelatedCache
           (UseTableQuery.exampleOptions (Some "users"))
           UseTableQuery.exampleCache)
  /\ UseTableQuery.clearAllRelatedCache (UseTableQuery.exampleOptions None)
       UseTableQuery.exampleCache
     = UseTableQuery.exampleCache
  /\ UseTableQuery.swrKey (fun _ => "{}")
       (UseTableQuery.exampleOptions (Some "users"))
       (fst (UseTableQuery.run (UseTableQuery.exampleOptions (Some "users"))
               [UseTableQuery.PaginationChange 2 10;
                UseTableQuery.UpdateColumnVisibility "name" true None]
               (fst (UseTableQuery.failedRequests
                       (UseTableQuery.exampleOptions (Some "users")) 2 0
                       (UseTableQuery.initialState
                          (UseTableQuery.exampleOptions (Some "users")) 0)
                       UseTableQuery.exampleCache))))
     = None
  /\ snd (UseTableQuery.onErrorRetry
            (UseTableQuery.exampleOptions (Some "users")) 1
            (UseTableQuery.initialState
               (UseTableQuery.exampleOptions (Some "users")) 0)
            UseTableQuery.exampleCache)
     = UseTableQuery.RevalidateAfter 3000 1
  /\ snd (UseTableQuery.onErrorRetry
            (UseTableQuery.exampleOptions (Some "users")) 2
            (UseTableQuery.initialState
               (UseTableQuery.exampleOptions (Some "users")) 0)
            UseTableQuery.exampleCache)
     = UseTableQuery.Nothing
  /\ UseTableQuery.isCacheKeyUndefined
       (fst (fst (UseTableQuery.failedRequests
                    (UseTableQuery.exampleOptions (Some "users")) 2 0
                    (UseTableQuery.initialState
                       (UseTableQuery.exampleOptions (Some "users")) 0)
                    UseTableQuery.exampleCache)))
     = true.
Proof.
  pose (opts := UseTableQuery.exampleOptions (Some "users")).
  pose (st := UseTableQuery.initialState opts 0).
  pose (c := UseTableQuery.exampleCache).
  pose proof (retry_policy (fun _ => "{}") opts st c) as H.
  destruct H as (Hretry & Hstop & _ & Hexhaust & Hclear & _ & _ & _).
  split; [reflexivity|].
  split; [reflexivity|].
  split.
  { apply (Hclear "users" (VStr "users-count") (VNum 42));
      [reflexivity|discriminate|right; left; reflexivity|reflexivity]. }
  split.
  { apply (proj1 (proj2 (proj2 (proj2 (proj2 (proj2
             (retry_policy (fun _ => "{}") (UseTableQuery.exampleOptions None)
                st c))))))).
    left. reflexivity. }
  split.
  { apply (proj1 (proj2 (proj2 (proj2 (proj2 (proj2 (proj2
             (retry_policy (fun _ => "{}") opts
                (fst (fst (UseTableQuery.failedRequests opts 2 0 st c)))
                (snd (fst (UseTableQuery.failedRequests opts 2 0 st c)))))))))))
      with (events := [UseTableQuery.PaginationChange 2 10;
                       UseTableQuery.UpdateColumnVisibility "name" true None]);
      reflexivity. }
  split.
  { apply (Hretry 1). lia. }
  split.
  { apply (Hstop 2). lia. }
  apply (Hexhaust 2%nat). lia.
Defined.

(** ** The presets hook *)

Lemma addPreset_appends (JSON_stringify : value -> string)
    (addPresetFn : Z -> value -> string -> Settled obj)
    (kind : Z) (name data : value) (cached : list obj) (newPreset : obj) :
  addPresetFn kind name (JSON_stringify data) = Fulfilled newPreset ->
  UsePresets.addPreset JSON_stringify addPresetFn (Some kind) name data
    (Some cached)
  = (Fulfilled newPreset, Some (cached ++ [newPreset])%list).
Proof. intros H. unfold UsePresets.addPreset. now rewrite H. Qed.

Lemma deletePreset_filters (agentDeletePreset : value -> Settled unit)
    (kind : Z) (presetId : value) (cached : list obj) :
  agentDeletePreset presetId = Fulfilled tt ->
  UsePresets.deletePreset agentDeletePreset (Some kind) presetId (Some cached)
  = (Fulfilled tt,
     Some (filter (fun preset =>
                     negb (strictEq (VObj preset)?."presetId" presetId))
                  cached)).
Proof. intros H. unfold UsePresets.deletePreset. now rewrite H. Qed.

(** C7.  The object [usePresets] returns has exactly the properties
    [presets], [defaultPreset], [isLoading], [error], [getPresets] and
    [presetsEnabled].  A caller that destructures [addPreset] or
    [deletePreset] from it gets [undefined]: the two mutations are defined
    inside the hook but are not handed out. *)
Theorem usePresets_hides_mutations :
  forall (JSON_parse : value -> option value) (ToNumber : value -> option Z)
         (presetKind : option Z) (swr : UsePresets.SwrResult),
    let result := UsePresets.usePresets JSON_parse ToNumber presetKind swr in
    map fst result
    = ["presets"; "defaultPreset"; "isLoading"; "error"; "getPresets";
       "presetsEnabled"]
    /\ UsePresets.member "addPreset" result = None
    /\ UsePresets.member "deletePreset" result = None
    /\ UsePresets.member "getPresets" result = Some UsePresets.MGetPresets.
Proof. intros. repeat split. Qed.

(* ================================================================= *)
(** * Further properties *)

(** ** Keys of objects *)

Lemma existsb_eqb_In (k : string) (keys : list string) :
  existsb (String.eqb k) keys = true <-> In k keys.
Proof.
  rewrite existsb_exists. split.
  - intros (x & Hin & Hx). apply String.eqb_eq in Hx. now subst.
  - intros Hin. exists k. split; [exact Hin|apply String.eqb_refl].
Qed.

Lemma uniqueKeys_NoDup (keys : list string) :
  NullFilters.uniqueKeys keys = true <-> NoDup keys.
Proof.
  induction keys as [|k keys IH]; simpl.
  - split; [constructor|reflexivity].
  - rewrite andb_true_iff, negb_true_iff, IH. split.
    + intros [Hk Hn]. constructor; [|exact Hn].
      intros Hin. apply existsb_eqb_In in Hin. congruence.
    + intros Hn. inversion Hn as [|? ? Hk Hn']; subst. split; [|exact Hn'].
      destruct (existsb (String.eqb k) keys) eqn:E; [|reflexivity].
      apply existsb_eqb_In in E. contradiction.
Qed.

Lemma obj_set_fresh (o : obj) (k : string) (v : value) :
  ~ In k (map fst o) -> obj_set o k v = (o ++ [(k, v)])%list.
Proof.
  induction o as [|[k' v'] o IH]; simpl; intros Hk; [reflexivity|].
  destruct (String.eqb k k') eqn:E.
  - apply String.eqb_eq in E. subst. exfalso. apply Hk. now left.
  - f_equal. apply IH. intros Hin. apply Hk. now right.
Qed.

Lemma keys_obj_set (o : obj) (k : string) (v : value) :
  map fst (obj_set o k v)
  = if existsb (String.eqb k) (map fst o) then map fst o
    else (map fst o ++ [k])%list.
Proof.
  induction o as [|[k' v'] o IH]; simpl; [reflexivity|].
  destruct (String.eqb k k') eqn:E; simpl.
  - reflexivity.
  - rewrite IH. now destruct (existsb (String.eqb k) (map fst o)).
Qed.

Lemma NoDup_keys_obj_set (o : obj) (k : string) (v : value) :
  NoDup (map fst o) -> NoDup (map fst (obj_set o k v)).
Proof.
  intros Hn. rewrite keys_obj_set.
  destruct (existsb (String.eqb k) (map fst o)) eqn:E; [exact Hn|].
  apply NoDup_app; [exact Hn|repeat constructor; intros []|].
  intros x Hx [<-|[]].
  apply existsb_eqb_In in Hx. congruence.
Qed.

Lemma lookup_None_iff (o : obj) (k : string) :
  lookup k o = None <-> ~ In k (map fst o).
Proof.
  induction o as [|[k' v'] o IH]; simpl.
  - tauto.
  - destruct (String.eqb k k') eqn:E.
    + apply String.eqb_eq in E. subst. split; [discriminate|].
      intros H. exfalso. apply H. now left.
    + apply String.eqb_neq in E. rewrite IH. split.
      * intros H [Hk|Hin]; [congruence|contradiction].
      * intros H Hin. apply H. now right.
Qed.

(** Setting one computed value per property, on keys that are all fresh:
    the properties are appended in order. *)
Lemma set_each_fresh (f : value -> value) (o acc : obj) :
  NoDup (map fst acc ++ map fst o)%list ->
  fold_left (fun acc kv => obj_set acc (fst kv) (f (snd kv))) o acc
  = (acc ++ map (fun kv => (fst kv, f (snd kv))) o)%list.
Proof.
  revert acc. induction o as [|[k v] o IH]; intros acc Hn; simpl.
  - now rewrite app_nil_r.
  - assert (Hk : ~ In k (map fst acc)).
    { intros Hin. apply NoDup_remove_2 in Hn. apply Hn.
      apply in_or_app. now left. }
    rewrite (obj_set_fresh acc k (f v) Hk).
    rewrite IH.
    + now rewrite <- app_assoc.
    + rewrite map_app. simpl. rewrite <- app_assoc. exact Hn.
Qed.

(** ** [createNullFilters] *)

Lemma allNull_obj_set (o : obj) (k : string) (v : value) :
  NullFilters.allNull (VObj o) = true ->
  NullFilters.allNull v = true ->
  NullFilters.allNull (VObj (obj_set o k v)) = true.
Proof.
  intros Ho Hv. induction o as [|[k' v'] o IH].
  - simpl. now rewrite Hv.
  - cbn [NullFilters.allNull forallb snd] in Ho.
    apply andb_prop in Ho. destruct Ho as [Hhead Ho].
    cbn [obj_set]. destruct (String.eqb k k');
      cbn [NullFilters.allNull forallb snd].
    + now rewrite Hv.
    + rewrite Hhead. exact (IH Ho).
Qed.

Lemma allNull_set_each (f : value -> value) (o : obj) :
  Forall (fun kv => NullFilters.allNull (f (snd kv)) = true) o ->
  forall acc,
    NullFilters.allNull (VObj acc) = true ->
    NullFilters.allNull
      (VObj (fold_left (fun acc kv => obj_set acc (fst kv) (f (snd kv))) o acc))
    = true.
Proof.
  induction 1 as [|[k v] o Hv _ IH]; intros acc Hacc; simpl.
  - exact Hacc.
  - apply IH. now apply allNull_obj_set.
Qed.

Lemma allNull_nullFilter (v : value) :
  NullFilters.allNull (NullFilters.nullFilter v) = true.
Proof.
  induction v as [ | | b | n | s | items _ | fields IH]
    using value_nested_ind; try reflexivity.
  cbn [NullFilters.nullFilter].
  apply allNull_set_each; [exact IH|reflexivity].
Qed.

Lemma allNull_createNullFilters (o : obj) :
  NullFilters.allNull (VObj (NullFilters.createNullFilters o)) = true.
Proof.
  unfold NullFilters.createNullFilters.
  apply allNull_set_each; [|reflexivity].
  apply Forall_forall. intros kv _. apply allNull_nullFilter.
Qed.

(** X1.  [createNullFilters] leaves no value other than [null] at any depth.
    On an object (each key once) it keeps the keys, in their order; a key
    that held a nested object holds the null filters of that object, and
    every other key holds [null]. *)
Theorem createNullFilters_shape :
  forall o : obj,
    NullFilters.allNull (VObj (NullFilters.createNullFilters o)) = true
    /\ (NullFilters.uniqueKeys (map fst o) = true ->
        NullFilters.createNullFilters o
        = map (fun kv =>
                 (fst kv,
                  match snd kv with
                  | VObj nested => VObj (NullFilters.createNullFilters nested)
                  | _ => VNull
                  end)) o).
Proof.
  intros o. split.
  - apply allNull_createNullFilters.
  - intros Hu. apply uniqueKeys_NoDup in Hu.
    unfold NullFilters.createNullFilters.
    rewrite set_each_fresh by exact Hu. simpl.
    apply map_ext. intros [k v]. destruct v; reflexivity.
Qed.

(** A form with a text field, a multi-select and a nested date range. *)
Lemma createNullFilters_shape_witness :
  NullFilters.createNullFilters
    [("name", VStr "ann");
     ("tags", VArr [VStr "a"; VStr "b"]);
     ("created", VObj [("from", VNum 1700); ("to", VUndefined)])]
  = [("name", VNull);
     ("tags", VNull);
     ("created", VObj [("from", VNull); ("to", VNull)])].
Proof.
  rewrite (proj2 (createNullFilters_shape _)) by reflexivity.
  reflexivity.
Defined.

(** Pruning drops whatever holds [null] leaves only. *)
Lemma recursiveTransform_allNull (v : value) (result : obj) (key : string) :
  NullFilters.allNull v = true ->
  Functions.recursiveTransform result v key = result.
Proof.
  revert result key.
  induction v as [ | | b | n | s | items _ | fields IH]
    using value_nested_ind; intros result key Hv; try discriminate Hv.
  - reflexivity.
  - cbn [Functions.recursiveTransform].
    replace (Functions.transform fields Functions.recursiveTransform [])
      with (@nil (string * value)); [reflexivity|].
    cbn [NullFilters.allNull] in Hv. unfold Functions.transform.
    generalize (@nil (string * value)) as acc.
    induction IH as [|[k x] fields Hx _ IHfields]; intros acc;
      [reflexivity|].
    cbn [forallb snd] in Hv. apply andb_prop in Hv. destruct Hv as [Hx' Hv].
    cbn [fold_left fst snd]. cbn [snd] in Hx. rewrite (Hx acc k Hx').
    apply IHfields. exact Hv.
Qed.

(** X2.  Pruning the null filters of any form values leaves the empty
    object: clearing a form and submitting it submits no filter at all. *)
Theorem prune_createNullFilters_empty :
  forall o : obj,
    Functions.pruneNullOrUndefinedFields (NullFilters.createNullFilters o)
    = [].
Proof.
  intros o.
  pose proof (allNull_createNullFilters o) as Hall.
  pose proof (recursiveTransform_allNull
                (VObj (NullFilters.createNullFilters o)) [] "" Hall) as H.
  cbn [Functions.recursiveTransform] in H.
  unfold Functions.pruneNullOrUndefinedFields.
  destruct (Functions.transform (NullFilters.createNullFilters o)
              Functions.recursiveTransform []) as [|kv rest];
    [reflexivity|].
  discriminate H.
Qed.

(** ** What pruning keeps *)











(** ** The submitted filters *)




(** ** Pruning is idempotent *)

Lemma forallb_obj_set (f : value -> bool) (o : obj) (k : string) (v : value) :
  forallb (fun kv => f (snd kv)) o = true ->
  f v = true ->
  forallb (fun kv => f (snd kv)) (obj_set o k v) = true.
Proof.
  intros Hall Hv. induction o as [|[k' v'] o IH]; simpl.
  - now rewrite Hv.
  - simpl in Hall. apply andb_prop in Hall. destruct Hall as [Hhead Hall].
    destruct (String.eqb k k'); simpl.
    + now rewrite Hv.
    + rewrite Hhead. exact (IH Hall).
Qed.

Lemma wellFormed_assign (o : obj) (k : string) (v : value) :
  NullFilters.wellFormed (VObj o) = true ->
  NullFilters.wellFormed v = true ->
  NullFilters.wellFormed (VObj (Functions.assign o k v)) = true.
Proof.
  unfold Functions.assign. intros Ho Hv.
  destruct (String.eqb k "__proto__") eqn:Ek; [exact Ho|].
  cbn [NullFilters.wellFormed] in Ho |- *.
  apply andb_prop in Ho. destruct Ho as [Ho Hall].
  apply andb_prop in Ho. destruct Ho as [Hu Hproto].
  apply andb_true_intro. split; [apply andb_true_intro; split|].
  - apply uniqueKeys_NoDup. apply NoDup_keys_obj_set.
    now apply uniqueKeys_NoDup.
  - apply negb_true_iff in Hproto. apply negb_true_iff.
    rewrite keys_obj_set.
    destruct (existsb (String.eqb k) (map fst o)); [exact Hproto|].
    rewrite existsb_app, Hproto. cbn [existsb orb].
    now rewrite String.eqb_sym, Ek.
  - now apply forallb_obj_set.
Qed.

Lemma wellFormed_transform (o : obj) :
  Forall (fun kv =>
            forall (result : obj) (key : string),
              NullFilters.wellFormed (VObj result) = true ->
              NullFilters.wellFormed
                (VObj (Functions.recursiveTransform result (snd kv) key))
              = true) o ->
  forall acc,
    NullFilters.wellFormed (VObj acc) = true ->
    NullFilters.wellFormed
      (VObj (Functions.transform o Functions.recursiveTransform acc)) = true.
Proof.
  unfold Functions.transform.
  induction 1 as [|[k v] o Hkv _ IH]; intros acc Hacc; simpl.
  - exact Hacc.
  - apply IH. apply Hkv. exact Hacc.
Qed.

Lemma wellFormed_recursiveTransform (v : value) (result : obj) (key : string) :
  NullFilters.wellFormed (VObj result) = true ->
  NullFilters.wellFormed (VObj (Functions.recursiveTransform result v key))
  = true.
Proof.
  revert result key.
  induction v as [ | | b | n | s | items _ | fields IH]
    using value_nested_ind; intros result key Hres.
  - exact Hres.
  - exact Hres.
  - now apply wellFormed_assign.
  - now apply wellFormed_assign.
  - cbn. destruct (String.eqb s ""); [exact Hres|].
    now apply wellFormed_assign.
  - now apply wellFormed_assign.
  - cbn [Functions.recursiveTransform].
    pose proof (wellFormed_transform fields IH [] eq_refl) as Hnested.
    destruct (Functions.isEmpty
                (Functions.transform fields Functions.recursiveTransform []));
      cbn [negb]; [exact Hres|].
    now apply wellFormed_assign.
Qed.

Lemma wellFormed_pruneNullOrUndefinedFields (o : obj) :
  NullFilters.wellFormed (VObj (Functions.pruneNullOrUndefinedFields o)) = true.
Proof.
  unfold Functions.pruneNullOrUndefinedFields.
  apply wellFormed_transform; [|reflexivity].
  apply Forall_forall. intros kv _ result key.
  apply wellFormed_recursiveTransform.
Qed.

Lemma assign_fresh (o : obj) (k : string) (v : value) :
  k <> "__proto__" ->
  ~ In k (map fst o) ->
  Functions.assign o k v = (o ++ [(k, v)])%list.
Proof.
  intros Hk Hfresh. unfold Functions.assign.
  apply String.eqb_neq in Hk. rewrite Hk. now apply obj_set_fresh.
Qed.

(** On fields that are pruned and well formed, under fresh keys other than
    ["__proto__"], the walk appends every field as it is. *)
Lemma transform_appends (fields : obj) :
  Forall (fun kv =>
            Functions.pruned (snd kv) = true ->
            NullFilters.wellFormed (snd kv) = true ->
            Functions.isBlank (snd kv) = false ->
            forall (result : obj) (key : string),
              key <> "__proto__" ->
              ~ In key (map fst result) ->
              Functions.recursiveTransform result (snd kv) key
              = (result ++ [(key, snd kv)])%list) fields ->
  Functions.pruned (VObj fields) = true ->
  forallb (fun kv => NullFilters.wellFormed (snd kv)) fields = true ->
  existsb (String.eqb "__proto__") (map fst fields) = false ->
  forall acc,
    NoDup (map fst acc ++ map fst fields)%list ->
    Functions.transform fields Functions.recursiveTransform acc
    = (acc ++ fields)%list.
Proof.
  unfold Functions.transform.
  induction 1 as [|[k x] fields Hx _ IH]; intros Hp Hw Hproto acc Hn.
  - simpl. now rewrite app_nil_r.
  - cbn [Functions.pruned forallb snd] in Hp.
    apply andb_prop in Hp. destruct Hp as [Hhead Hp].
    apply andb_prop in Hhead. destruct Hhead as [Hb Hpx].
    apply negb_true_iff in Hb.
    cbn [forallb snd] in Hw. apply andb_prop in Hw. destruct Hw as [Hwx Hw].
    cbn [map fst existsb] in Hproto. apply orb_false_elim in Hproto.
    destruct Hproto as [Hk0 Hproto].
    assert (Hkp : k <> "__proto__").
    { intros ->. discriminate Hk0. }
    cbn [snd] in Hx. cbn [fold_left fst snd].
    assert (Hk : ~ In k (map fst acc)).
    { intros Hin. cbn [map fst] in Hn. apply NoDup_remove_2 in Hn.
      apply Hn. apply in_or_app. now left. }
    rewrite (Hx Hpx Hwx Hb acc k Hkp Hk).
    rewrite IH; [now rewrite <- app_assoc|exact Hp|exact Hw|exact Hproto|].
    rewrite map_app. cbn [map fst] in Hn |- *.
    rewrite <- app_assoc. exact Hn.
Qed.

Lemma recursiveTransform_appends (v : value) :
  Functions.pruned v = true ->
  NullFilters.wellFormed v = true ->
  Functions.isBlank v = false ->
  forall (result : obj) (key : string),
    key <> "__proto__" ->
    ~ In key (map fst result) ->
    Functions.recursiveTransform result v key = (result ++ [(key, v)])%list.
Proof.
  induction v as [ | | b | n | s | items _ | fields IH]
    using value_nested_ind; intros Hp Hw Hb result key Hkp Hk;
    try discriminate Hb;
    try (now apply assign_fresh).
  - cbn. unfold Functions.isBlank in Hb. cbn in Hb.
    rewrite orb_false_r in Hb. rewrite Hb. now apply assign_fresh.
  - cbn [Functions.recursiveTransform].
    cbn [NullFilters.wellFormed] in Hw.
    apply andb_prop in Hw. destruct Hw as [Hu Hw].
    apply andb_prop in Hu. destruct Hu as [Hu Hproto].
    apply negb_true_iff in Hproto.
    apply uniqueKeys_NoDup in Hu.
    rewrite (transform_appends fields IH Hp Hw Hproto [] Hu). cbn [app].
    destruct fields as [|kv rest]; [discriminate Hb|].
    cbn [Functions.isEmpty negb]. now apply assign_fresh.
Qed.

(** X4.  Pruning is idempotent: an object that came out of
    [pruneNullOrUndefinedFields] goes through it unchanged.  Submitting the
    submitted filters again therefore submits the same filters. *)
Theorem pruneNullOrUndefinedFields_idempotent :
  forall o : obj,
    Functions.pruneNullOrUndefinedFields
      (Functions.pruneNullOrUndefinedFields o)
    = Functions.pruneNullOrUndefinedFields o
    /\ (forall (opts : UseTableQuery.TableQueryOptions) (now now' : Z)
               (st : UseTableQuery.State),
           let st1 := UseTableQuery.submitFilters opts o now st in
           UseTableQuery.submittedFilters
             (UseTableQuery.submitFilters opts
                (UseTableQuery.submittedFilters st1) now' st1)
           = UseTableQuery.submittedFilters st1).
Proof.
  intros o.
  assert (H : Functions.pruneNullOrUndefinedFields
                (Functions.pruneNullOrUndefinedFields o)
              = Functions.pruneNullOrUndefinedFields o).
  { pose proof (pruneNullOrUndefinedFields_pruned o) as Hp.
    pose proof (wellFormed_pruneNullOrUndefinedFields o) as Hw.
    cbn [NullFilters.wellFormed] in Hw.
    apply andb_prop in Hw. destruct Hw as [Hu Hw].
    apply andb_prop in Hu. destruct Hu as [Hu Hproto].
    apply negb_true_iff in Hproto.
    apply uniqueKeys_NoDup in Hu.
    unfold Functions.pruneNullOrUndefinedFields at 1.
    apply (transform_appends (Functions.pruneNullOrUndefinedFields o));
      [|exact Hp|exact Hw|exact Hproto|exact Hu].
    apply Forall_forall. intros kv _ Hpx Hwx Hb result key.
    now apply recursiveTransform_appends. }
  split; [exact H|]. intros opts now now' st st1. exact H.
Qed.

(** ** The stale window key *)

Lemma append_cancel_l (prefix a b : string) :
  (prefix ++ a)%string = (prefix ++ b)%string -> a = b.
Proof.
  induction prefix as [|c prefix IH]; simpl; intros H; [exact H|].
  injection H as H. auto.
Qed.

Lemma to_int_not_nil (z : Z) :
  Z.to_int z <> Decimal.Pos Decimal.Nil /\ Z.to_int z <> Decimal.Neg Decimal.Nil.
Proof.
  destruct z as [|p|p]; simpl; split; try discriminate;
    intros [= H]; now apply DecimalPos.Unsigned.to_uint_nonnil in H.
Qed.

Lemma string_of_Z_inj (a b : Z) :
  NilZero.string_of_int (Z.to_int a) = NilZero.string_of_int (Z.to_int b) ->
  a = b.
Proof.
  intros H. apply (f_equal NilZero.int_of_string) in H.
  destruct (to_int_not_nil a) as [Ha1 Ha2].
  destruct (to_int_not_nil b) as [Hb1 Hb2].
  rewrite !NilZero.isi in H by assumption.
  injection H as H. now apply DecimalZ.to_int_inj.
Qed.

(** X5.  The stale window key names the time window.  With a window of
    [m] minutes, [m] not 0 (5 when none is given), two instants get the same
    key exactly when they fall into the same window, and an instant of
    window number [k] gets the prefix followed by [k] in decimal.  Two
    filter submissions carry the same stale key exactly when they are made
    in the same window. *)
Theorem getTimeWindowKey_names_window :
  forall (intervalMinutes : option Z) (prefix : string),
    let ms := match intervalMinutes with Some m => m | None => 5 end
              * 60 * 1000 in
    ms <> 0 ->
    (forall now1 now2 : Z,
        UseTableQuery.getTimeWindowKey intervalMinutes prefix now1
        = UseTableQuery.getTimeWindowKey intervalMinutes prefix now2
        <-> now1 / ms = now2 / ms)
    /\ (forall now k : Z,
           0 < ms ->
           k * ms <= now < (k + 1) * ms ->
           UseTableQuery.getTimeWindowKey intervalMinutes prefix now
           = (prefix ++ NilZero.string_of_int (Z.to_int k))%string)
    /\ (forall (opts : UseTableQuery.TableQueryOptions) (f1 f2 : obj)
               (now1 now2 : Z) (st1 st2 : UseTableQuery.State),
           UseTableQuery.defaultStale opts = intervalMinutes ->
           (UseTableQuery.staleTime
              (UseTableQuery.submitFilters opts f1 now1 st1)
            = UseTableQuery.staleTime
                (UseTableQuery.submitFilters opts f2 now2 st2)
            <-> now1 / ms = now2 / ms)).
Proof.
  intros intervalMinutes prefix ms Hms.
  assert (Hkey : forall p now1 now2,
             UseTableQuery.getTimeWindowKey intervalMinutes p now1
             = UseTableQuery.getTimeWindowKey intervalMinutes p now2
             <-> now1 / ms = now2 / ms).
  { intros p now1 now2. unfold UseTableQuery.getTimeWindowKey. fold ms.
    apply Z.eqb_neq in Hms. rewrite Hms. split.
    - intros H. apply append_cancel_l in H. now apply string_of_Z_inj.
    - intros ->. reflexivity. }
  split; [apply Hkey|]. split.
  - intros now k Hpos Hk. unfold UseTableQuery.getTimeWindowKey. fold ms.
    apply Z.eqb_neq in Hms. rewrite Hms.
    replace (now / ms) with k; [reflexivity|].
    apply Z.div_unique with (r := now - k * ms); [left|]; lia.
  - intros opts f1 f2 now1 now2 st1 st2 Hopts.
    cbn [UseTableQuery.submitFilters UseTableQuery.staleTime].
    rewrite Hopts. apply Hkey.
Qed.

(** The default window of 5 minutes: 12:00:10 and 12:04:50 of the first day
    share a key, 12:05:00 starts the next window. *)
Lemma getTimeWindowKey_names_window_witness :
  UseTableQuery.getTimeWindowKey None "filters_" 43210000
  = UseTableQuery.getTimeWindowKey None "filters_" 43490000
  /\ UseTableQuery.getTimeWindowKey None "filters_" 43500000 = "filters_145"
  /\ (UseTableQuery.staleTime
        (UseTableQuery.submitFilters (UseTableQuery.exampleOptions None)
           [] 43210000
           (UseTableQuery.initialState (UseTableQuery.exampleOptions None) 0))
      = UseTableQuery.staleTime
          (UseTableQuery.submitFilters (UseTableQuery.exampleOptions None)
             [] 43500000
             (UseTableQuery.initialState (UseTableQuery.exampleOptions None)
                0))
      <-> 43210000 / (5 * 60 * 1000) = 43500000 / (5 * 60 * 1000)).
Proof.
  assert (Hms : 5 * 60 * 1000 <> 0) by lia.
  pose proof (getTimeWindowKey_names_window None "filters_" Hms)
    as (Hsame & Hk & Hsubmit).
  split; [|split].
  - apply Hsame. reflexivity.
  - apply (Hk 43500000 145); lia.
  - apply Hsubmit. reflexivity.
Defined.

(** ** Sorting with a comparator *)

Section SortFacts.
Context {A : Type}.
Variable comparefn : A -> A -> option Z.

Lemma insert_Permutation (x : A) (l : list A) :
  Permutation (UsePresets.insert comparefn x l) (x :: l).
Proof.
  induction l as [|y l IH]; simpl; [reflexivity|].
  destruct (UsePresets.sortCompare comparefn x y <=? 0); [reflexivity|].
  rewrite IH. apply perm_swap.
Qed.

Lemma sort_Permutation (l : list A) :
  Permutation (UsePresets.sort comparefn l) l.
Proof.
  induction l as [|x l IH]; simpl; [reflexivity|].
  rewrite insert_Permutation. now constructor.
Qed.

(** A list whose neighbours are already in order is left as it is. *)
Lemma sort_in_order (l : list A) :
  Sorted (fun a b => UsePresets.sortCompare comparefn a b <= 0) l ->
  UsePresets.sort comparefn l = l.
Proof.
  induction 1 as [|x l Hs IH Hhd]; simpl; [reflexivity|].
  rewrite IH. destruct Hhd as [|y l Hxy]; simpl; [reflexivity|].
  apply Z.leb_le in Hxy. now rewrite Hxy.
Qed.

Variable key : A -> Z.
Variable P : A -> Prop.
Hypothesis comparefn_key :
  forall a b, P a -> P b ->
              UsePresets.sortCompare comparefn a b = key a - key b.

Lemma insert_Sorted (x : A) (l : list A) :
  P x -> Forall P l ->
  Sorted (fun a b => key a <= key b) l ->
  Sorted (fun a b => key a <= key b) (UsePresets.insert comparefn x l).
Proof.
  intros Px HP Hs. induction Hs as [|y l Hs IH Hhd]; simpl.
  - repeat constructor.
  - inversion HP as [|? ? Py HPl]; subst.
    rewrite (comparefn_key x y Px Py).
    destruct (key x - key y <=? 0) eqn:E.
    + apply Z.leb_le in E. constructor; [now constructor|].
      constructor. lia.
    + apply Z.leb_gt in E. constructor; [now apply IH|].
      destruct Hhd as [|z l Hyz]; simpl.
      * constructor. lia.
      * inversion HPl as [|? ? Pz _]; subst.
        rewrite (comparefn_key x z Px Pz).
        destruct (key x - key z <=? 0); constructor; [lia|exact Hyz].
Qed.

Lemma sort_Sorted (l : list A) :
  Forall P l ->
  Sorted (fun a b => key a <= key b) (UsePresets.sort comparefn l).
Proof.
  induction 1 as [|x l Px HP IH]; simpl; [constructor|].
  apply insert_Sorted; [exact Px| |exact IH].
  apply Forall_forall. intros y Hy.
  apply (Permutation_in _ (sort_Permutation l)) in Hy.
  rewrite Forall_forall in HP. auto.
Qed.

End SortFacts.

(** Sorting commutes with a map the comparator does not see. *)
Lemma sort_map {A : Type} (comparefn : A -> A -> option Z) (f : A -> A)
    (l : list A) :
  (forall a b, comparefn (f a) (f b) = comparefn a b) ->
  UsePresets.sort comparefn (map f l) = map f (UsePresets.sort comparefn l).
Proof.
  intros Hf. induction l as [|x l IH]; simpl; [reflexivity|].
  rewrite IH. generalize (UsePresets.sort comparefn l) as s.
  induction s as [|y s IHs]; simpl; [reflexivity|].
  unfold UsePresets.sortCompare at 1. rewrite Hf.
  fold (UsePresets.sortCompare comparefn x y).
  destruct (UsePresets.sortCompare comparefn x y <=? 0); simpl;
    [reflexivity|].
  now rewrite IHs.
Qed.

(** ** The columns of the table *)

Lemma byOrder_key (ToNumber : value -> option Z) (ord : obj -> Z) (a b : obj) :
  ToNumber (Columns.orderOr999 a) = Some (ord a) ->
  ToNumber (Columns.orderOr999 b) = Some (ord b) ->
  UsePresets.sortCompare (Columns.byOrder ToNumber) a b = ord a - ord b.
Proof.
  intros Ha Hb.
  unfold UsePresets.sortCompare, Columns.byOrder, UsePresets.minus.
  now rewrite Ha, Hb.
Qed.

(** X6.  The columns handed to the table are the stored columns, each
    exactly once, whatever their [order] values are.  When every [order]
    (999 for a column without one) is a number, they come in ascending
    [order]. *)
Theorem sortedColumns_sorted_permutation :
  forall (ToNumber : value -> option Z) (st : UseTableQuery.State),
    Permutation (Columns.sortedColumns ToNumber st) (UseTableQuery.columns st)
    /\ (forall ord : obj -> Z,
           (forall col, In col (UseTableQuery.columns st) ->
                        ToNumber (Columns.orderOr999 col) = Some (ord col)) ->
           StronglySorted (fun a b => ord a <= ord b)
             (Columns.sortedColumns ToNumber st)).
Proof.
  intros ToNumber st. split.
  - apply sort_Permutation.
  - intros ord Hord. apply Sorted_StronglySorted.
    + intros x y z Hxy Hyz. lia.
    + unfold Columns.sortedColumns.
      apply sort_Sorted
        with (P := fun col =>
                     ToNumber (Columns.orderOr999 col) = Some (ord col)).
      * intros a b Ha Hb. now apply byOrder_key.
      * apply Forall_forall. exact Hord.
Qed.

(** Three columns, the middle one without an [order]: it goes last. *)
Lemma sortedColumns_sorted_permutation_witness :
  StronglySorted
    (fun a b =>
       match Columns.orderOr999 a with VNum n => n | _ => 0 end
       <= match Columns.orderOr999 b with VNum n => n | _ => 0 end)
    (Columns.sortedColumns UsePresets.toNumberPlain
       (UseTableQuery.setColumns
          [ [("dataIndex", VStr "name"); ("order", VNum 2)];
            [("dataIndex", VStr "email")];
            [("dataIndex", VStr "id"); ("order", VNum 1)] ]
          (UseTableQuery.initialState (UseTableQuery.exampleOptions None) 0))).
Proof.
  apply (proj2 (sortedColumns_sorted_permutation UsePresets.toNumberPlain _)).
  intros col [<-|[<-|[<-|[]]]]; reflexivity.
Defined.

Lemma withOrder_nth (cols : list obj) :
  (forall col, In col cols -> lookup "order" col = None) ->
  forall (index : Z) (i : nat) (col : obj),
    nth_error cols i = Some col ->
    nth_error (UseTableQuery.withOrder index cols) i
    = Some (col ++ [("order", VNum (index + Z.of_nat i))])%list.
Proof.
  induction cols as [|c cols IH]; intros Hno index i col Hi.
  - destruct i; discriminate Hi.
  - destruct i as [|i]; cbn [nth_error UseTableQuery.withOrder] in *.
    + injection Hi as <-.
      assert (Hc : lookup "order" c = None) by (apply Hno; now left).
      cbn [get]. rewrite Hc. rewrite obj_set_fresh.
      * now replace (index + Z.of_nat 0) with index by lia.
      * now apply lookup_None_iff.
    + rewrite (IH (fun col' H => Hno col' (or_intror H)) (index + 1) i col Hi).
      now replace (index + 1 + Z.of_nat i) with (index + Z.of_nat (S i))
        by lia.
Qed.

Lemma withOrder_Sorted (ToNumber : value -> option Z) (cols : list obj) :
  (forall n, ToNumber (VNum n) = Some n) ->
  (forall col, In col cols -> lookup "order" col = None) ->
  forall index,
    Sorted (fun a b =>
              UsePresets.sortCompare (Columns.byOrder ToNumber) a b <= 0)
      (UseTableQuery.withOrder index cols)
    /\ Forall (fun col => exists n, index <= n
                                    /\ Columns.orderOr999 col = VNum n)
         (UseTableQuery.withOrder index cols).
Proof.
  intros HN. induction cols as [|c cols IH]; intros Hno index.
  - split; constructor.
  - destruct (IH (fun col' H => Hno col' (or_intror H)) (index + 1))
      as [Hs Hall].
    assert (Hc : lookup "order" c = None) by (apply Hno; now left).
    assert (Hhead : Columns.orderOr999
                      (obj_set c "order"
                         match (VObj c)?."order" with
                         | VUndefined => VNum index
                         | order => order
                         end) = VNum index).
    { cbn [get]. rewrite Hc. unfold Columns.orderOr999. cbn [get].
      now rewrite lookup_obj_set_same. }
    cbn [UseTableQuery.withOrder]. split.
    + constructor; [exact Hs|].
      destruct (UseTableQuery.withOrder (index + 1) cols) as [|d rest] eqn:E;
        constructor.
      inversion Hall as [|? ? (n & Hn & Hd) _]; subst.
      unfold UsePresets.sortCompare, Columns.byOrder, UsePresets.minus.
      rewrite Hhead, Hd, !HN. lia.
    + constructor; [exists index; split; [lia|exact Hhead]|].
      eapply Forall_impl; [|exact Hall].
      intros col (n & Hn & Hcol). exists n. split; [lia|exact Hcol].
Qed.

(** X7.  With no [order] declared on any initial column, the table shows the
    columns in the order they were given: the column at position [i] is the
    given column at position [i], with [order: i] added last, and nothing
    else is shown. *)
Theorem initial_columns_keep_given_order :
  forall (ToNumber : value -> option Z)
         (opts : UseTableQuery.TableQueryOptions) (now : Z),
    (forall n, ToNumber (VNum n) = Some n) ->
    (forall col, In col (UseTableQuery.initialColumns opts) ->
                 lookup "order" col = None) ->
    length (Columns.sortedColumns ToNumber
              (UseTableQuery.initialState opts now))
    = length (UseTableQuery.initialColumns opts)
    /\ forall (i : nat) (col : obj),
        nth_error (UseTableQuery.initialColumns opts) i = Some col ->
        nth_error (Columns.sortedColumns ToNumber
                     (UseTableQuery.initialState opts now)) i
        = Some (col ++ [("order", VNum (Z.of_nat i))])%list.
Proof.
  intros ToNumber opts now HN Hno.
  assert (Hcols : UseTableQuery.columns (UseTableQuery.initialState opts now)
                  = UseTableQuery.withOrder 0 (UseTableQuery.initialColumns opts)).
  { cbn [UseTableQuery.initialState UseTableQuery.columns].
    unfold UseTableQuery.columnsWithOrder.
    now destruct (UseTableQuery.initialColumns opts). }
  assert (Hsort : Columns.sortedColumns ToNumber
                    (UseTableQuery.initialState opts now)
                  = UseTableQuery.withOrder 0 (UseTableQuery.initialColumns opts)).
  { unfold Columns.sortedColumns. rewrite Hcols.
    apply sort_in_order. now apply withOrder_Sorted. }
  rewrite Hsort. split.
  - clear. generalize 0 as index.
    induction (UseTableQuery.initialColumns opts) as [|c cols IH];
      intros index; simpl; [reflexivity|]. now rewrite IH.
  - intros i col Hi. now rewrite (withOrder_nth _ Hno 0 i col Hi).
Qed.

(** Two columns given without [order]: the second one shown is the second
    one given. *)
Lemma initial_columns_keep_given_order_witness :
  nth_error
    (Columns.sortedColumns UsePresets.toNumberPlain
       (UseTableQuery.initialState
          {| UseTableQuery.fetchData := fun _ => Rejected VNull;
             UseTableQuery.initialData := None;
             UseTableQuery.initialColumns :=
               [ [("dataIndex", VStr "name")]; [("dataIndex", VStr "email")] ];
             UseTableQuery.initialFilters := None;
             UseTableQuery.cacheKey := Some "users";
             UseTableQuery.initialPage := None;
             UseTableQuery.initialPageSize := None;
             UseTableQuery.initialSorter := None;
             UseTableQuery.defaultStale := None |} 0))
    1
  = Some [("dataIndex", VStr "email"); ("order", VNum 1)].
Proof.
  apply (proj2 (initial_columns_keep_given_order UsePresets.toNumberPlain
                  {| UseTableQuery.fetchData := fun _ => Rejected VNull;
                     UseTableQuery.initialData := None;
                     UseTableQuery.initialColumns :=
                       [ [("dataIndex", VStr "name")];
                         [("dataIndex", VStr "email")] ];
                     UseTableQuery.initialFilters := None;
                     UseTableQuery.cacheKey := Some "users";
                     UseTableQuery.initialPage := None;
                     UseTableQuery.initialPageSize := None;
                     UseTableQuery.initialSorter := None;
                     UseTableQuery.defaultStale := None |} 0
                  (fun n => eq_refl)
                  ltac:(intros col [<-|[<-|[]]]; reflexivity))
           1%nat [("dataIndex", VStr "email")]).
  reflexivity.
Defined.

Lemma orderOr999_set_hidden (col : obj) (v : value) :
  Columns.orderOr999 (obj_set col "hidden" v) = Columns.orderOr999 col.
Proof.
  unfold Columns.orderOr999. cbn [get].
  now rewrite (lookup_obj_set_other col "hidden" "order" v eq_refl).
Qed.

(** X8.  [updateColumnVisibility] keeps the stored columns in their places.
    A column whose [dataIndex] is not the key is left as it is.  A column
    whose [dataIndex] is the key gets the [hidden] flag, and the [order]
    when one is passed; every other property of it keeps its value.
    Without an [order], the columns handed to the table come in the same
    sequence as before: hiding or showing a column does not move any. *)
Theorem updateColumnVisibility_touches_only_hidden_and_order :
  forall (key : string) (hidden : bool) (order : option Z)
         (st : UseTableQuery.State),
    Forall2
      (fun col col' =>
         if strictEq (VObj col)?."dataIndex" (VStr key) then
           lookup "hidden" col' = Some (VBool hidden)
           /\ lookup "order" col'
              = match order with
                | Some o => Some (VNum o)
                | None => lookup "order" col
                end
           /\ (forall k, k <> "hidden" -> k <> "order" ->
                         lookup k col' = lookup k col)
         else col' = col)
      (UseTableQuery.columns st)
      (UseTableQuery.columns
         (UseTableQuery.updateColumnVisibility key hidden order st))
    /\ (forall ToNumber : value -> option Z,
           Columns.sortedColumns ToNumber
             (UseTableQuery.updateColumnVisibility key hidden None st)
           = UseTableQuery.columns
               (UseTableQuery.updateColumnVisibility key hidden None
                  (UseTableQuery.setColumns
                     (Columns.sortedColumns ToNumber st) st))).
Proof.
  intros key hidden order st. split.
  - cbn [UseTableQuery.updateColumnVisibility UseTableQuery.setColumns
           UseTableQuery.columns].
    induction (UseTableQuery.columns st) as [|col cols IH]; cbn [map];
      constructor; [|exact IH].
    destruct (strictEq (VObj col)?."dataIndex" (VStr key)); [|reflexivity].
    destruct order as [o|].
    + split; [|split].
      * rewrite (lookup_obj_set_other _ "order" "hidden" (VNum o) eq_refl).
        apply lookup_obj_set_same.
      * apply lookup_obj_set_same.
      * intros k Hh Ho.
        rewrite lookup_obj_set_other by now apply String.eqb_neq.
        rewrite lookup_obj_set_other by now apply String.eqb_neq.
        reflexivity.
    + split; [|split].
      * apply lookup_obj_set_same.
      * apply (lookup_obj_set_other col "hidden" "order" (VBool hidden) eq_refl).
      * intros k Hh Ho.
        rewrite lookup_obj_set_other by now apply String.eqb_neq.
        reflexivity.
  - intros ToNumber.
    cbn [UseTableQuery.updateColumnVisibility UseTableQuery.setColumns
           UseTableQuery.columns Columns.sortedColumns].
    unfold Columns.sortedColumns.
    cbn [UseTableQuery.setColumns UseTableQuery.columns].
    apply sort_map. intros a b. unfold Columns.byOrder.
    assert (Hsame : forall c,
               Columns.orderOr999
                 (if strictEq (VObj c)?."dataIndex" (VStr key)
                  then obj_set c "hidden" (VBool hidden) else c)
               = Columns.orderOr999 c).
    { intros c. destruct (strictEq (VObj c)?."dataIndex" (VStr key));
        [apply orderOr999_set_hidden|reflexivity]. }
    now rewrite !Hsame.
Qed.

(** ** Clearing the cache *)

Lemma prefix_iff (p s : string) :
  String.prefix p s = true <-> exists rest, s = (p ++ rest)%string.
Proof.
  revert s. induction p as [|c p IH]; intros s.
  - split; [intros _; now exists s|intros _; now destruct s].
  - destruct s as [|d s]; simpl.
    + split; [discriminate|]. intros (rest & H). discriminate H.
    + destruct (Ascii.ascii_dec c d) as [->|Hcd].
      * rewrite IH. split; intros (rest & H); exists rest; congruence.
      * split; [discriminate|]. intros (rest & H). congruence.
Qed.

Lemma includes_iff (s p : string) :
  includes s p = true
  <-> exists before rest, s = (before ++ p ++ rest)%string.
Proof.
  induction s as [|c s IH].
  - cbn [includes]. rewrite orb_false_r, prefix_iff. split.
    + intros (rest & H). now exists EmptyString, rest.
    + intros (before & rest & H). destruct before; [now exists rest|].
      discriminate H.
  - cbn [includes]. rewrite orb_true_iff, prefix_iff, IH. split.
    + intros [(rest & H)|(before & rest & H)].
      * now exists EmptyString, rest.
      * exists (String c before), rest. simpl. now rewrite H.
    + intros (before & rest & H). destruct before as [|d before].
      * left. now exists rest.
      * right. exists before, rest. simpl in H. congruence.
Qed.

Lemma mutate_twice (filter : value -> bool) (data : value)
    (c : UseTableQuery.Cache) :
  UseTableQuery.mutate filter data (UseTableQuery.mutate filter data c)
  = UseTableQuery.mutate filter data c.
Proof.
  unfold UseTableQuery.mutate. rewrite map_map. apply map_ext.
  intros [k d]. cbn [fst]. destruct (filter k) eqn:E; cbn [fst]; now rewrite E.
Qed.

(** X9.  [clearAllRelatedCache] keeps every key of the cache, in place: an
    entry it matches holds [undefined] afterwards and every other entry holds
    the data it held.  Clearing twice is clearing once. *)
Theorem clearAllRelatedCache_keeps_keys :
  forall (opts : UseTableQuery.TableQueryOptions) (c : UseTableQuery.Cache),
    Forall2
      (fun entry entry' =>
         fst entry' = fst entry
         /\ snd entry'
            = if UseTableQuery.matchesCacheKey opts (fst entry)
              then VUndefined else snd entry)
      c (UseTableQuery.clearAllRelatedCache opts c)
    /\ UseTableQuery.clearAllRelatedCache opts
         (UseTableQuery.clearAllRelatedCache opts c)
       = UseTableQuery.clearAllRelatedCache opts c.
Proof.
  intros opts c. split.
  - unfold UseTableQuery.clearAllRelatedCache, UseTableQuery.mutate.
    induction c as [|[k d] c IH]; cbn [map]; constructor; [|exact IH].
    cbn [fst snd]. now destruct (UseTableQuery.matchesCacheKey opts k).
  - apply mutate_twice.
Qed.

(** X10.  Which entries [clearAllRelatedCache] matches.  Without a
    [cacheKey], or with the empty one, none.  Otherwise a string key is
    matched when it starts with [cacheKey], and an array key when its first
    element is a string that has [cacheKey] anywhere inside, at the start or
    not; no other key is matched.  The key the hook itself hands to SWR is
    among the matched ones whenever [cacheKey] is a non-empty string. *)
Theorem matchesCacheKey_characterized :
  forall (opts : UseTableQuery.TableQueryOptions) (key : value),
    (UseTableQuery.matchesCacheKey opts key = true
     <-> exists ck : string,
         UseTableQuery.cacheKey opts = Some ck
         /\ ck <> EmptyString
         /\ ((exists rest, key = VStr (ck ++ rest))
             \/ (exists before rest others,
                    key = VArr (VStr (before ++ ck ++ rest) :: others))))
    /\ (forall (JSON_stringify : value -> string) (st : UseTableQuery.State)
               (ck : string),
           UseTableQuery.cacheKey opts = Some ck ->
           ck <> EmptyString ->
           UseTableQuery.swrKey JSON_stringify opts st = Some key ->
           UseTableQuery.matchesCacheKey opts key = true).
Proof.
  intros opts key.
  assert (Hiff : UseTableQuery.matchesCacheKey opts key = true
                 <-> exists ck : string,
                     UseTableQuery.cacheKey opts = Some ck
                     /\ ck <> EmptyString
                     /\ ((exists rest, key = VStr (ck ++ rest))
                         \/ (exists before rest others,
                                key = VArr (VStr (before ++ ck ++ rest)
                                            :: others)))).
  { unfold UseTableQuery.matchesCacheKey.
    destruct (UseTableQuery.cacheKey opts) as [ck|].
    2:{ split; [discriminate|]. intros (ck & H & _). discriminate H. }
    destruct ck as [|a ck].
    { split; [discriminate|]. intros (ck & [= <-] & H & _). now elim H. }
    cbn [truthy String.eqb negb]. split.
    - intros H. exists (String a ck). split; [reflexivity|].
      split; [discriminate|].
      destruct key as [ | | | | s | [|[ | | | | s | | ] items] | ];
        try discriminate H.
      + left. apply prefix_iff in H. destruct H as (rest & ->). now exists rest.
      + right. apply includes_iff in H. destruct H as (before & rest & ->).
        now exists before, rest, items.
    - intros (ck' & [= <-] & _ & [(rest & ->)|(before & rest & others & ->)]).
      + apply prefix_iff. now exists rest.
      + apply includes_iff. now exists before, rest. }
  split; [exact Hiff|].
  intros JSON_stringify st ck Hck Hne Hkey. apply Hiff.
  exists ck. split; [exact Hck|]. split; [exact Hne|]. right.
  unfold UseTableQuery.swrKey in Hkey.
  destruct (UseTableQuery.isCacheKeyUndefined st); [discriminate|].
  injection Hkey as <-. unfold UseTableQuery.cacheKeyValue. rewrite Hck.
  exists EmptyString, EmptyString. eexists.
  cbn [String.append].
  replace (ck ++ "")%string with ck; [reflexivity|].
  clear. induction ck as [|c ck IH]; simpl; congruence.
Qed.

(** The key ["user"] matches an array key that only contains it, and the key
    of the hook's own entry. *)
Lemma matchesCacheKey_characterized_witness :
  UseTableQuery.matchesCacheKey (UseTableQuery.exampleOptions (Some "user"))
    (VArr [VStr "superusers"; VNum 1]) = true
  /\ UseTableQuery.matchesCacheKey
       (UseTableQuery.exampleOptions (Some "users"))
       (VArr [VStr "users"; VNum 1; VNum 10; VStr "{}"; VStr "{}";
              VStr "filters_0"]) = true.
Proof.
  split.
  - apply (proj2 (proj1 (matchesCacheKey_characterized
                           (UseTableQuery.exampleOptions (Some "user"))
                           (VArr [VStr "superusers"; VNum 1])))).
    exists "user". split; [reflexivity|]. split; [discriminate|].
    right. exists "super", "s", [VNum 1]. reflexivity.
  - apply (proj2 (matchesCacheKey_characterized
                    (UseTableQuery.exampleOptions (Some "users")) _)
             (fun _ => "{}")
             (UseTableQuery.initialState
                (UseTableQuery.exampleOptions (Some "users")) 0)
             "users");
      [reflexivity|discriminate|reflexivity].
Defined.

(** ** Preset mutations *)


Lemma filter_all {A : Type} (f : A -> bool) (l : list A) :
  (forall x, In x l -> f x = true) -> filter f l = l.
Proof.
  induction l as [|x l IH]; simpl; intros H; [reflexivity|].
  rewrite (H x (or_introl eq_refl)). f_equal. apply IH. auto.
Qed.



(** X12.  The update of [deletePreset] undoes the update of [addPreset]:
    when [addPreset] has put the preset the server answered at the end of
    the cached list, filtering that list by the id of the new preset gives
    the list that was cached before (the empty list when nothing was),
    provided the id is strictly equal to itself and no cached preset
    already carried it. *)
Theorem deletePresetUpdate_undoes_addPreset :
  forall (JSON_stringify : value -> string)
         (addPresetFn : Z -> value -> string -> Settled obj)
         (kind : Z) (name data : value) (cached : option (list obj))
         (newPreset : obj),
    addPresetFn kind name (JSON_stringify data) = Fulfilled newPreset ->
    strictEq (VObj newPreset)?."presetId" (VObj newPreset)?."presetId" = true ->
    (forall p, In p (match cached with Some l => l | None => [] end) ->
               strictEq (VObj p)?."presetId" (VObj newPreset)?."presetId"
               = false) ->
    let added :=
      snd (UsePresets.addPreset JSON_stringify addPresetFn (Some kind)
             name data cached) in
    added = Some (match cached with Some l => l | None => [] end
                  ++ [newPreset])%list
    /\ UsePresets.deletePresetUpdate (VObj newPreset)?."presetId" added
       = match cached with Some l => l | None => [] end.
Proof.
  intros JSON_stringify addPresetFn kind name data cached newPreset
    Hadd Hid Hfresh added. subst added.
  unfold UsePresets.addPreset. rewrite Hadd. cbn [snd].
  assert (Hlist : UsePresets.addPresetUpdate newPreset cached
                  = (match cached with Some l => l | None => [] end
                     ++ [newPreset])%list).
  { now destruct cached. }
  rewrite Hlist. split; [reflexivity|].
  cbn [UsePresets.deletePresetUpdate].
  rewrite filter_app. cbn [filter]. rewrite Hid. cbn [negb].
  rewrite app_nil_r.
  apply filter_all. intros p Hp. now rewrite (Hfresh p Hp).
Qed.

(** The server stores the preset under id 9. *)
Lemma deletePresetUpdate_undoes_addPreset_witness :
  UsePresets.deletePresetUpdate (VNum 9)
    (snd (UsePresets.addPreset (fun _ => "{}")
            (fun _ name text =>
               Fulfilled [("presetId", VNum 9); ("name", name);
                          ("data", VStr text)])
            (Some 4) (VStr "mine") (VObj [])
            (Some UsePresets.examplePresets)))
  = UsePresets.examplePresets.
Proof.
  apply (proj2 (deletePresetUpdate_undoes_addPreset (fun _ => "{}")
                  (fun _ name text =>
                     Fulfilled [("presetId", VNum 9); ("name", name);
                                ("data", VStr text)])
                  4 (VStr "mine") (VObj [])
                  (Some UsePresets.examplePresets)
                  [("presetId", VNum 9); ("name", VStr "mine");
                   ("data", VStr "{}")]
                  eq_refl eq_refl
                  ltac:(intros p [<-|[<-|[<-|[]]]]; reflexivity))).
Defined.

(** X13.  A preset mutation that is rejected leaves the cached list as it
    was, whether the server call failed or the preset kind is missing; and
    without a preset kind both mutations are rejected, whatever the server
    would answer. *)
Theorem preset_mutation_rejected_keeps_cache :
  forall (JSON_stringify : value -> string)
         (addPresetFn : Z -> value -> string -> Settled obj)
         (agentDeletePreset : value -> Settled unit)
         (presetKind : option Z) (name data presetId : value)
         (cached : option (list obj)),
    (forall reason,
        fst (UsePresets.addPreset JSON_stringify addPresetFn presetKind
               name data cached) = Rejected reason ->
        snd (UsePresets.addPreset JSON_stringify addPresetFn presetKind
               name data cached) = cached)
    /\ (forall reason,
           fst (UsePresets.deletePreset agentDeletePreset presetKind presetId
                  cached) = Rejected reason ->
           snd (UsePresets.deletePreset agentDeletePreset presetKind presetId
                  cached) = cached)
    /\ (presetKind = None ->
        (exists reason,
            fst (UsePresets.addPreset JSON_stringify addPresetFn presetKind
                   name data cached) = Rejected reason)
        /\ (exists reason,
               fst (UsePresets.deletePreset agentDeletePreset presetKind
                      presetId cached) = Rejected reason)).
Proof.
  intros JSON_stringify addPresetFn agentDeletePreset presetKind name data
    presetId cached.
  unfold UsePresets.addPreset, UsePresets.deletePreset.
  split; [|split].
  - intros reason. destruct presetKind as [kind|]; [|reflexivity].
    destruct (addPresetFn kind name (JSON_stringify data));
      [discriminate|reflexivity].
  - intros reason. destruct presetKind as [kind|]; [|reflexivity].
    destruct (agentDeletePreset presetId); [discriminate|reflexivity].
  - intros ->. split; eexists; reflexivity.
Qed.

(** The server refuses the new preset: the three cached presets stay. *)
Lemma preset_mutation_rejected_keeps_cache_witness :
  snd (UsePresets.addPreset (fun _ => "{}")
         (fun _ _ _ => Rejected (VStr "Forbidden"))
         (Some 4) (VStr "mine") (VObj []) (Some UsePresets.examplePresets))
  = Some UsePresets.examplePresets
  /\ exists reason,
      fst (UsePresets.deletePreset (fun _ => Fulfilled tt) None (VNum 2)
             (Some UsePresets.examplePresets)) = Rejected reason.
Proof.
  split.
  - apply (proj1 (preset_mutation_rejected_keeps_cache (fun _ => "{}")
                    (fun _ _ _ => Rejected (VStr "Forbidden"))
                    (fun _ => Fulfilled tt) (Some 4) (VStr "mine") (VObj [])
                    (VNum 2) (Some UsePresets.examplePresets))
             (VStr "Forbidden")).
    reflexivity.
  - apply (proj2 (proj2 (preset_mutation_rejected_keeps_cache (fun _ => "{}")
                           (fun _ _ _ => Rejected (VStr "Forbidden"))
                           (fun _ => Fulfilled tt) None (VStr "mine")
                           (VObj []) (VNum 2)
                           (Some UsePresets.examplePresets)))
             eq_refl).
Defined.

(** ** Ties between presets *)

Section SortHeadFirst.
Context {A : Type}.
Variable comparefn : A -> A -> option Z.
Variable key : A -> Z.
Variable P : A -> Prop.
Hypothesis comparefn_key :
  forall a b, P a -> P b ->
              UsePresets.sortCompare comparefn a b = key b - key a.

(** The head of the sorted list is the first of the largest elements. *)
Lemma sort_head_first_max (l : list A) :
  Forall P l ->
  forall m rest,
    UsePresets.sort comparefn l = m :: rest ->
    exists l1 l2,
      l = (l1 ++ m :: l2)%list
      /\ (forall q, In q l1 -> key q < key m)
      /\ (forall q, In q l2 -> key q <= key m).
Proof.
  induction l as [|x l IH]; intros HP m rest Hs; [discriminate|].
  inversion HP as [|? ? Hx Hl]; subst. simpl in Hs.
  destruct (UsePresets.sort comparefn l) as [|y r] eqn:Hsl.
  - assert (l = []) as ->.
    { destruct l as [|z l]; [reflexivity|].
      assert (Hin : In z (UsePresets.sort comparefn (z :: l))).
      { apply (Permutation_in _ (Permutation_sym (sort_Permutation _ _))).
        now left. }
      rewrite Hsl in Hin. destruct Hin. }
    simpl in Hs. injection Hs as <- _.
    exists [], []. repeat split; intros q [].
  - destruct (IH Hl y r eq_refl) as (l1 & l2 & -> & Hlt & Hle).
    assert (Py : P y).
    { rewrite Forall_forall in Hl. apply Hl. apply in_or_app.
      right. now left. }
    simpl in Hs. rewrite (comparefn_key x y Hx Py) in Hs.
    destruct (key y - key x <=? 0) eqn:Hc.
    + injection Hs as <- _. apply Z.leb_le in Hc.
      exists [], (l1 ++ y :: l2)%list. split; [reflexivity|].
      split; [intros q []|].
      intros q Hq. apply in_app_or in Hq.
      destruct Hq as [Hq|[<-|Hq]];
        [specialize (Hlt q Hq)| |specialize (Hle q Hq)]; lia.
    + injection Hs as <- _. apply Z.leb_gt in Hc.
      exists (x :: l1), l2. split; [reflexivity|].
      split; [|exact Hle].
      intros q [<-|Hq]; [lia|auto].
Qed.

End SortHeadFirst.

Section PresetTies.
Variable JSON_parse : value -> option value.
Variable ToNumber : value -> option Z.

Lemma parsedPresets_cons (p : obj) (presets : list obj) :
  UsePresets.parsedPresets JSON_parse ToNumber (p :: presets)
  = match UsePresets.parsePreset JSON_parse p with
    | Some q =>
        if UsePresets.gtZero ToNumber (UsePresets.lastUpdated q)
        then q :: UsePresets.parsedPresets JSON_parse ToNumber presets
        else UsePresets.parsedPresets JSON_parse ToNumber presets
    | None => UsePresets.parsedPresets JSON_parse ToNumber presets
    end.
Proof.
  unfold UsePresets.parsedPresets. cbn [map UsePresets.filterBoolean].
  destruct (UsePresets.parsePreset JSON_parse p) as [q|]; [|reflexivity].
  cbn [UsePresets.filterBoolean filter]. reflexivity.
Qed.

Lemma parsedPresets_split (presets : list obj) :
  forall l1 m l2,
    UsePresets.parsedPresets JSON_parse ToNumber presets
    = (l1 ++ m :: l2)%list ->
    exists before p after,
      presets = (before ++ p :: after)%list
      /\ UsePresets.parsedPresets JSON_parse ToNumber before = l1
      /\ UsePresets.parsedPresets JSON_parse ToNumber after = l2
      /\ UsePresets.parsePreset JSON_parse p = Some m
      /\ UsePresets.gtZero ToNumber (UsePresets.lastUpdated m) = true.
Proof.
  induction presets as [|p0 presets IH]; intros l1 m l2 H.
  - destruct l1; discriminate H.
  - rewrite parsedPresets_cons in H.
    assert (Hskip :
              UsePresets.parsedPresets JSON_parse ToNumber [p0] = [] ->
              UsePresets.parsedPresets JSON_parse ToNumber presets
              = (l1 ++ m :: l2)%list ->
              exists before p after,
                (p0 :: presets) = (before ++ p :: after)%list
                /\ UsePresets.parsedPresets JSON_parse ToNumber before = l1
                /\ UsePresets.parsedPresets JSON_parse ToNumber after = l2
                /\ UsePresets.parsePreset JSON_parse p = Some m
                /\ UsePresets.gtZero ToNumber (UsePresets.lastUpdated m)
                   = true).
    { intros H0 Hps.
      destruct (IH l1 m l2 Hps) as (before & p & after & -> & Hb & Ha & Hp).
      exists (p0 :: before), p, after. split; [reflexivity|].
      split; [|split; [exact Ha|exact Hp]].
      rewrite parsedPresets_cons. rewrite parsedPresets_cons in H0.
      destruct (UsePresets.parsePreset JSON_parse p0) as [q0|]; [|exact Hb].
      destruct (UsePresets.gtZero ToNumber (UsePresets.lastUpdated q0));
        [discriminate H0|exact Hb]. }
    destruct (UsePresets.parsePreset JSON_parse p0) as [q0|] eqn:Hp0.
    2:{ apply Hskip; [|exact H]. rewrite parsedPresets_cons, Hp0.
        reflexivity. }
    destruct (UsePresets.gtZero ToNumber (UsePresets.lastUpdated q0)) eqn:Hg.
    2:{ apply Hskip; [|exact H]. rewrite parsedPresets_cons, Hp0, Hg.
        reflexivity. }
    destruct l1 as [|q l1]; simpl in H; injection H as Hq H.
    + subst m. exists [], p0, presets. repeat split; auto.
    + subst q. destruct (IH l1 m l2 H)
        as (before & p & after & -> & Hb & Ha & Hp).
      exists (p0 :: before), p, after. split; [reflexivity|].
      split; [|split; [exact Ha|exact Hp]].
      now rewrite parsedPresets_cons, Hp0, Hg, Hb.
Qed.

(** X14.  Ties.  The default preset is the first entry of the list, in list
    order, among the valid entries with the largest [lastUpdated]: every
    valid entry before it is strictly older, every valid entry after it is
    not newer. *)
Theorem defaultPreset_first_of_latest (presetKind : option Z)
    (presets : list obj) (r : obj) :
  UsePresets.defaultPreset JSON_parse ToNumber presetKind presets = Some r ->
  exists before p after d t,
    presets = (before ++ p :: after)%list
    /\ UsePresets.validPreset JSON_parse ToNumber p d t
    /\ r = obj_set (obj_set p "parsedData" d) "data" d
    /\ (forall p' d' t',
           In p' before ->
           UsePresets.validPreset JSON_parse ToNumber p' d' t' -> t' < t)
    /\ (forall p' d' t',
           In p' after ->
           UsePresets.validPreset JSON_parse ToNumber p' d' t' -> t' <= t).
Proof.
  set (stamp := fun q : obj =>
                  match ToNumber (UsePresets.lastUpdated q) with
                  | Some t => t
                  | None => 0
                  end).
  assert (Hstamp : forall p d t,
             ToNumber d?."lastUpdated" = Some t ->
             stamp (obj_set p "parsedData" d) = t).
  { intros p d t Ht. unfold stamp, UsePresets.lastUpdated.
    now rewrite get_obj_set_same, Ht. }
  assert (Hin : forall l q,
             In q (UsePresets.parsedPresets JSON_parse ToNumber l) ->
             exists t, ToNumber (UsePresets.lastUpdated q) = Some t).
  { intros l q Hq. apply In_parsedPresets in Hq.
    destruct Hq as (p & d & t & _ & (_ & Ht & _) & ->).
    exists t. unfold UsePresets.lastUpdated. now rewrite get_obj_set_same. }
  assert (Hmem : forall l p d t,
             In p l -> UsePresets.validPreset JSON_parse ToNumber p d t ->
             In (obj_set p "parsedData" d)
                (UsePresets.parsedPresets JSON_parse ToNumber l)).
  { intros l p d t Hp Hv. apply In_parsedPresets. now exists p, d, t. }
  unfold UsePresets.defaultPreset.
  destruct presetKind as [kind|]; [|discriminate].
  destruct presets as [|p0 presets0] eqn:Hpresets; [discriminate|].
  rewrite <- Hpresets. clear Hpresets.
  destruct (UsePresets.sort (UsePresets.byLastUpdatedDesc ToNumber)
              (UsePresets.parsedPresets JSON_parse ToNumber presets))
    as [|m rest] eqn:Hs; [discriminate|].
  intros [= <-].
  destruct (sort_head_first_max (UsePresets.byLastUpdatedDesc ToNumber) stamp
              (fun q => exists t,
                   ToNumber (UsePresets.lastUpdated q) = Some t)
              (fun a b Ha Hb => byLastUpdatedDesc_stamp ToNumber a b Ha Hb)
              (UsePresets.parsedPresets JSON_parse ToNumber presets)
              (proj2 (Forall_forall _ _) (Hin presets)) m rest Hs)
    as (l1 & l2 & Hsplit & Hlt & Hle).
  destruct (parsedPresets_split presets l1 m l2 Hsplit)
    as (before & p & after & -> & Hb & Ha & Hp & Hg).
  apply parsePreset_Some in Hp. destruct Hp as (d & Hd & ->).
  unfold UsePresets.gtZero, UsePresets.lastUpdated in Hg.
  rewrite get_obj_set_same in Hg.
  destruct (ToNumber d?."lastUpdated") as [t|] eqn:Ht; [|discriminate].
  apply Z.ltb_lt in Hg.
  exists before, p, after, d, t.
  split; [reflexivity|]. split; [repeat split; assumption|].
  split; [cbn [get]; now rewrite lookup_obj_set_same|].
  split.
  - intros p' d' t' Hp' Hv'. pose proof Hv' as (_ & Ht' & _).
    pose proof (Hmem before p' d' t' Hp' Hv') as Hq. rewrite Hb in Hq.
    apply Hlt in Hq.
    now rewrite (Hstamp _ _ _ Ht), (Hstamp _ _ _ Ht') in Hq.
  - intros p' d' t' Hp' Hv'. pose proof Hv' as (_ & Ht' & _).
    pose proof (Hmem after p' d' t' Hp' Hv') as Hq. rewrite Ha in Hq.
    apply Hle in Hq.
    now rewrite (Hstamp _ _ _ Ht), (Hstamp _ _ _ Ht') in Hq.
Qed.

End PresetTies.

(** Two presets saved at the same instant: the first of the list is the
    default. *)
Lemma defaultPreset_first_of_latest_witness :
  exists before p after d t,
    [ [("presetId", VNum 1); ("data", VStr "newer")];
      [("presetId", VNum 2); ("data", VStr "newer")] ]
    = (before ++ p :: after)%list
    /\ UsePresets.validPreset (UsePresets.parseTable UsePresets.exampleTable)
         UsePresets.toNumberPlain p d t
    /\ [("presetId", VNum 1);
        ("data", VObj [("filters", VObj []); ("lastUpdated", VNum 1800)]);
        ("parsedData",
         VObj [("filters", VObj []); ("lastUpdated", VNum 1800)])]
       = obj_set (obj_set p "parsedData" d) "data" d
    /\ (forall p' d' t',
           In p' before ->
           UsePresets.validPreset
             (UsePresets.parseTable UsePresets.exampleTable)
             UsePresets.toNumberPlain p' d' t' -> t' < t)
    /\ (forall p' d' t',
           In p' after ->
           UsePresets.validPreset
             (UsePresets.parseTable UsePresets.exampleTable)
             UsePresets.toNumberPlain p' d' t' -> t' <= t).
Proof.
  apply (defaultPreset_first_of_latest
           (UsePresets.parseTable UsePresets.exampleTable)
           UsePresets.toNumberPlain (Some 4)).
  reflexivity.
Defined.

(** ** Debouncing *)

Section DebounceFacts.
Context {Args : Type}.
Variable wait : Z.

Lemma debounce_run_snoc (events : list (UseDebouncedCallback.Event Args))
    (ev : UseDebouncedCallback.Event Args) (e : UseDebouncedCallback.Env Args) :
  UseDebouncedCallback.run wait (events ++ [ev]) e
  = UseDebouncedCallback.step wait ev (UseDebouncedCallback.run wait events e).
Proof. unfold UseDebouncedCallback.run. now rewrite fold_left_app. Qed.

Lemma clearCurrent_oneTimer (e : UseDebouncedCallback.Env Args) :
  UseDebouncedCallback.oneTimer e ->
  UseDebouncedCallback.clearCurrent Args e = [].
Proof.
  unfold UseDebouncedCallback.oneTimer, UseDebouncedCallback.clearCurrent.
  intros [H|(t & H & Ht)]; rewrite H.
  - now destruct (UseDebouncedCallback.timeout e).
  - rewrite Ht. cbn. now rewrite Nat.eqb_refl.
Qed.

Lemma debounced_pending (now : Z) (a : Args)
    (e : UseDebouncedCallback.Env Args) :
  UseDebouncedCallback.oneTimer e ->
  UseDebouncedCallback.pending (UseDebouncedCallback.debounced wait now a e)
  = [ {| UseDebouncedCallback.handle := UseDebouncedCallback.nextHandle e;
         UseDebouncedCallback.due := now + wait;
         UseDebouncedCallback.args := a |} ].
Proof.
  intros H. cbn [UseDebouncedCallback.debounced UseDebouncedCallback.pending].
  now rewrite (clearCurrent_oneTimer e H).
Qed.

Lemma fire_oneTimer (now : Z) (e : UseDebouncedCallback.Env Args) :
  UseDebouncedCallback.oneTimer e ->
  UseDebouncedCallback.fire now e = e
  \/ exists t,
      UseDebouncedCallback.pending e = [t]
      /\ UseDebouncedCallback.due t <= now
      /\ UseDebouncedCallback.pending (UseDebouncedCallback.fire now e) = []
      /\ UseDebouncedCallback.invocations (UseDebouncedCallback.fire now e)
         = (UseDebouncedCallback.invocations e
            ++ [(now, UseDebouncedCallback.args t)])%list.
Proof.
  unfold UseDebouncedCallback.oneTimer, UseDebouncedCallback.fire.
  intros [H|(t & H & Ht)]; rewrite H; cbn [UseDebouncedCallback.takeDue].
  - now left.
  - destruct (UseDebouncedCallback.due t <=? now) eqn:E; [|now left].
    right. exists t. apply Z.leb_le in E.
    split; [reflexivity|]. split; [exact E|].
    cbn. split; [|reflexivity].
    unfold UseDebouncedCallback.clearCurrent. cbn.
    now destruct (UseDebouncedCallback.timeout e).
Qed.

Lemma debounce_invariant (events : list (UseDebouncedCallback.Event Args)) :
  let e := UseDebouncedCallback.run wait events UseDebouncedCallback.mounted in
  UseDebouncedCallback.oneTimer e
  /\ Forall (fun t =>
               exists called,
                 In (UseDebouncedCallback.Call called
                       (UseDebouncedCallback.args t)) events
                 /\ UseDebouncedCallback.due t = called + wait)
       (UseDebouncedCallback.pending e)
  /\ Forall (UseDebouncedCallback.answersCall wait events)
       (UseDebouncedCallback.invocations e).
Proof.
  induction events as [|ev events IH] using rev_ind.
  - cbn. split; [now left|]. split; constructor.
  - cbn zeta in IH |- *. rewrite debounce_run_snoc.
    destruct IH as (Hone & Hpend & Hinv).
    assert (Hinv' : Forall (UseDebouncedCallback.answersCall wait
                              (events ++ [ev]))
                      (UseDebouncedCallback.invocations
                         (UseDebouncedCallback.run wait events
                            UseDebouncedCallback.mounted))).
    { eapply Forall_impl; [|exact Hinv].
      intros inv (called & Hin & Hle). exists called.
      split; [apply in_or_app; now left|exact Hle]. }
    destruct ev as [now a|now]; cbn [UseDebouncedCallback.step].
    + split; [|split].
      * right. eexists. split; [now apply debounced_pending|reflexivity].
      * rewrite (debounced_pending now a _ Hone).
        constructor; [|constructor]. exists now.
        split; [apply in_or_app; right; now left|reflexivity].
      * exact Hinv'.
    + destruct (fire_oneTimer now _ Hone) as [->|(t & Ht & Hdue & Hp & Hi)].
      * split; [exact Hone|]. split; [|exact Hinv'].
        eapply Forall_impl; [|exact Hpend].
        intros t (called & Hin & Hd). exists called.
        split; [apply in_or_app; now left|exact Hd].
      * split; [left; exact Hp|]. rewrite Hp, Hi.
        split; [constructor|].
        apply Forall_app. split; [exact Hinv'|].
        constructor; [|constructor].
        rewrite Ht in Hpend. inversion Hpend as [|? ? (called & Hin & Hd) _].
        subst. exists called. cbn [fst snd].
        split; [apply in_or_app; now left|lia].
Qed.

Lemma debounce_calls_only (e0 : UseDebouncedCallback.Env Args) :
  UseDebouncedCallback.oneTimer e0 ->
  forall earlier : list (Z * Args),
    UseDebouncedCallback.oneTimer
      (UseDebouncedCallback.run wait
         (map (fun c => UseDebouncedCallback.Call (fst c) (snd c)) earlier) e0)
    /\ UseDebouncedCallback.invocations
         (UseDebouncedCallback.run wait
            (map (fun c => UseDebouncedCallback.Call (fst c) (snd c)) earlier)
            e0)
       = UseDebouncedCallback.invocations e0.
Proof.
  intros H0 earlier. induction earlier as [|c earlier IH] using rev_ind.
  - cbn. split; [exact H0|reflexivity].
  - rewrite map_app. cbn [map]. rewrite debounce_run_snoc.
    destruct IH as [Hone Hi]. cbn [UseDebouncedCallback.step].
    split; [|exact Hi].
    right. eexists. split; [now apply debounced_pending|reflexivity].
Qed.

(** X15.  However the debounced function is called and whenever the browser
    runs its timers, at most one timer is pending, and [func] is only ever
    called with the arguments of an earlier call of the debounced function,
    no sooner than [wait] after that call. *)
Theorem debounce_one_timer_and_no_early_call :
  forall events : list (UseDebouncedCallback.Event Args),
    let e := UseDebouncedCallback.run wait events UseDebouncedCallback.mounted in
    (length (UseDebouncedCallback.pending e) <= 1)%nat
    /\ Forall (UseDebouncedCallback.answersCall wait events)
         (UseDebouncedCallback.invocations e).
Proof.
  intros events e. subst e.
  destruct (debounce_invariant events) as (Hone & _ & Hinv).
  split; [|exact Hinv].
  destruct Hone as [->|(t & -> & _)]; simpl; lia.
Qed.

(** X16.  A burst.  When the debounced function is called any number of
    times before the browser runs a timer, and the browser then runs the
    timers at an instant at least [wait] after the last call, [func] is
    called exactly once more, with the arguments of the last call, and no
    timer is left.  Were the browser to look earlier than [wait] after the
    last call, it would find nothing to run. *)
Theorem debounce_burst_calls_once_with_last_arguments :
  forall (history : list (UseDebouncedCallback.Event Args))
         (earlier : list (Z * Args)) (called now : Z) (a : Args),
    let e0 := UseDebouncedCallback.run wait history
                UseDebouncedCallback.mounted in
    let burst :=
      (map (fun c => UseDebouncedCallback.Call (fst c) (snd c)) earlier
       ++ [UseDebouncedCallback.Call called a])%list in
    (called + wait <= now ->
     let e := UseDebouncedCallback.run wait (burst ++ [UseDebouncedCallback.Fire now])
                e0 in
     UseDebouncedCallback.invocations e
     = (UseDebouncedCallback.invocations e0 ++ [(now, a)])%list
     /\ UseDebouncedCallback.pending e = [])
    /\ (now < called + wait ->
        UseDebouncedCallback.run wait (burst ++ [UseDebouncedCallback.Fire now])
          e0
        = UseDebouncedCallback.run wait burst e0).
Proof.
  intros history earlier called now a e0 burst.
  assert (Hbefore := debounce_calls_only e0 (proj1 (debounce_invariant history))
                       earlier).
  destruct Hbefore as [Hone Hi].
  assert (Hpend :
            UseDebouncedCallback.pending (UseDebouncedCallback.run wait burst e0)
            = [ {| UseDebouncedCallback.handle :=
                     UseDebouncedCallback.nextHandle
                       (UseDebouncedCallback.run wait
                          (map (fun c =>
                                  UseDebouncedCallback.Call (fst c) (snd c))
                             earlier) e0);
                   UseDebouncedCallback.due := called + wait;
                   UseDebouncedCallback.args := a |} ]
            /\ UseDebouncedCallback.timeout
                 (UseDebouncedCallback.run wait burst e0)
               = Some (UseDebouncedCallback.nextHandle
                         (UseDebouncedCallback.run wait
                            (map (fun c =>
                                    UseDebouncedCallback.Call (fst c) (snd c))
                               earlier) e0))
            /\ UseDebouncedCallback.invocations
                 (UseDebouncedCallback.run wait burst e0)
               = UseDebouncedCallback.invocations e0).
  { subst burst. rewrite debounce_run_snoc. cbn [UseDebouncedCallback.step].
    split; [now apply debounced_pending|]. split; [reflexivity|exact Hi]. }
  destruct Hpend as (Hp & Ht & Hinv).
  split.
  - intros Hdue e. subst e. rewrite debounce_run_snoc.
    cbn [UseDebouncedCallback.step]. unfold UseDebouncedCallback.fire.
    rewrite Hp. cbn [UseDebouncedCallback.takeDue UseDebouncedCallback.due].
    apply Z.leb_le in Hdue. rewrite Hdue.
    cbn [UseDebouncedCallback.later UseDebouncedCallback.invocations
           UseDebouncedCallback.pending UseDebouncedCallback.args].
    rewrite Hinv. split; [reflexivity|].
    unfold UseDebouncedCallback.clearCurrent. cbn.
    now destruct (UseDebouncedCallback.timeout
                    (UseDebouncedCallback.run wait burst e0)).
  - intros Hearly. rewrite debounce_run_snoc.
    cbn [UseDebouncedCallback.step]. unfold UseDebouncedCallback.fire.
    rewrite Hp. cbn [UseDebouncedCallback.takeDue UseDebouncedCallback.due].
    apply Z.leb_gt in Hearly. now rewrite Hearly.
Qed.

End DebounceFacts.

(** Three calls within half a second, then quiet: one call of [func], with
    the last arguments.  Two calls three seconds apart are both passed
    on. *)
Lemma debounce_burst_calls_once_with_last_arguments_witness :
  UseDebouncedCallback.invocations
    (UseDebouncedCallback.run 500
       [UseDebouncedCallback.Call 0 "a"; UseDebouncedCallback.Call 100 "b";
        UseDebouncedCallback.Call 200 "c"; UseDebouncedCallback.Fire 700]
       UseDebouncedCallback.mounted)
  = [(700, "c")]
  /\ UseDebouncedCallback.invocations
       (UseDebouncedCallback.run 500
          [UseDebouncedCallback.Call 3000 "second";
           UseDebouncedCallback.Fire 3500]
          (UseDebouncedCallback.run 500
             [UseDebouncedCallback.Call 0 "first";
              UseDebouncedCallback.Fire 500]
             UseDebouncedCallback.mounted))
     = [(500, "first"); (3500, "second")]
  /\ UseDebouncedCallback.run 500
       [UseDebouncedCallback.Call 0 "a"; UseDebouncedCallback.Fire 499]
       UseDebouncedCallback.mounted
     = UseDebouncedCallback.run 500 [UseDebouncedCallback.Call 0 "a"]
         UseDebouncedCallback.mounted.
Proof.
  split; [|split].
  - apply (proj1 (debounce_burst_calls_once_with_last_arguments 500 []
                    [(0, "a"); (100, "b")] 200 700 "c")).
    lia.
  - apply (proj1 (debounce_burst_calls_once_with_last_arguments 500
                    [UseDebouncedCallback.Call 0 "first";
                     UseDebouncedCallback.Fire 500]
                    [] 3000 3500 "second")).
    lia.
  - apply (proj2 (debounce_burst_calls_once_with_last_arguments 500 []
                    [] 0 499 "a")).
    lia.
Defined.

(** ** The page before and during its initial load *)

(** X17.  Until the page is initialised the backend is out of reach: the
    wrapped [fetchData] answers the empty result without calling the
    original, so the table is empty, the total is 0 and an export yields no
    rows; the hook is given no [cacheKey], so clearing the cache, by hand or
    after exhausted retries, changes no entry; and the page reports that it
    is loading. *)
Theorem page_not_initialized_is_inert :
  forall (tableQueryOptions : UseTableQuery.TableQueryOptions)
         (params : UseTableQuery.Params.FetchDataParams)
         (st : UseTableQuery.State) (c : UseTableQuery.Cache)
         (isFetching presetsEnabled isPresetsLoading : bool),
    let opts := PageBuilder.queryOptions false tableQueryOptions in
    UseTableQuery.fetchData opts params
    = Fulfilled PageBuilder.notInitialized
    /\ UseTableQuery.dataSource opts PageBuilder.notInitialized = VArr []
    /\ Normalize.extractTotal PageBuilder.notInitialized = VNum 0
    /\ UseTableQuery.exportFn opts st = Fulfilled (VArr [])
    /\ UseTableQuery.clearAllRelatedCache opts c = c
    /\ snd (fst (UseTableQuery.failedRequests opts 2 0 st c)) = c
    /\ PageBuilder.isLoading isFetching presetsEnabled isPresetsLoading false
       = true.
Proof.
  intros tableQueryOptions params st c isFetching presetsEnabled
    isPresetsLoading opts.
  assert (Hclear : UseTableQuery.clearAllRelatedCache opts c = c).
  { unfold UseTableQuery.clearAllRelatedCache.
    replace (UseTableQuery.matchesCacheKey opts) with (fun _ : value => false)
      by reflexivity.
    apply mutate_none. }
  repeat split; try reflexivity; try exact Hclear.
  unfold PageBuilder.isLoading. now rewrite orb_true_r.
Qed.

(** X18.  The initial load.  Without a preset kind the effect submits the
    initial filters at once.  With a preset kind it does nothing while the
    presets are loading; once they are loaded it submits the filters of the
    default preset when it has some, and the initial filters otherwise.
    What it submits is pruned, the page is 1 and the page is initialised
    from then on.  Once it has run, running it again changes nothing,
    whatever the presets have become. *)
Theorem initialLoad_submits_once :
  forall (ownProperties : value -> obj)
         (JSON_parse : value -> option value) (ToNumber : value -> option Z)
         (opts : UseTableQuery.TableQueryOptions) (initialFilters : obj)
         (presetKind : option Z) (swr : UsePresets.SwrResult) (now : Z)
         (pg : PageBuilder.Page),
    let pg' := PageBuilder.initialLoadWithPresets ownProperties JSON_parse
                 ToNumber opts initialFilters presetKind swr now pg in
    let presets := match UsePresets.data swr with
                   | Some l => l
                   | None => []
                   end in
    let submitted (filters : obj) :=
      PageBuilder.isInitialized pg' = true
      /\ PageBuilder.initialLoadDone pg' = true
      /\ UseTableQuery.Params.filters
           (UseTableQuery.fetchParams (PageBuilder.query pg'))
         = Functions.pruneNullOrUndefinedFields filters
      /\ UseTableQuery.Params.page
           (UseTableQuery.Params.pagination
              (UseTableQuery.fetchParams (PageBuilder.query pg'))) = 1 in
    (PageBuilder.initialLoadDone pg = true -> pg' = pg)
    /\ (PageBuilder.initialLoadDone pg = false ->
        (presetKind = None -> submitted initialFilters)
        /\ (presetKind <> None ->
            (UsePresets.isValidating swr || UsePresets.isLoading swr)%bool
            = true ->
            pg' = pg)
        /\ (presetKind <> None ->
            (UsePresets.isValidating swr || UsePresets.isLoading swr)%bool
            = false ->
            (forall (r : obj) (filters : obj),
                UsePresets.defaultPreset JSON_parse ToNumber presetKind presets
                = Some r ->
                (VObj r)?."data"?."filters" = VObj filters ->
                submitted filters)
            /\ (forall r : obj,
                   UsePresets.defaultPreset JSON_parse ToNumber presetKind
                     presets = Some r ->
                   truthy (VObj r)?."data"?."filters" = false ->
                   submitted initialFilters)
            /\ (UsePresets.defaultPreset JSON_parse ToNumber presetKind presets
                = None ->
                submitted initialFilters))).
Proof.
  intros ownProperties JSON_parse ToNumber opts initialFilters presetKind swr
    now pg pg' presets submitted.
  subst pg' submitted presets.
  unfold PageBuilder.initialLoadWithPresets, PageBuilder.initialLoad.
  cbn [UsePresets.usePresets UsePresets.member String.eqb Ascii.eqb Bool.eqb].
  split.
  - intros ->. reflexivity.
  - intros ->. split; [|split].
    + intros ->. cbn. repeat split.
    + destruct presetKind as [kind|]; [|congruence]. intros _ Hl.
      cbn [negb]. rewrite Hl. reflexivity.
    + destruct presetKind as [kind|]; [|congruence]. intros _ Hl.
      cbn [negb]. rewrite Hl. cbn [orb].
      split; [|split].
      * intros r filters Hr Hf. rewrite Hr, Hf. cbn. repeat split.
      * intros r Hr Hf. rewrite Hr. unfold or_else. rewrite Hf.
        cbn. repeat split.
      * intros Hr. rewrite Hr. cbn. repeat split.
Qed.

(** The latest stored preset has the empty object as filters: that is what
    is submitted, not the initial filters. *)
Lemma initialLoad_submits_once_witness :
  UseTableQuery.Params.filters
    (UseTableQuery.fetchParams
       (PageBuilder.query
          (PageBuilder.initialLoadWithPresets (fun _ => [])
             (UsePresets.parseTable UsePresets.exampleTable)
             UsePresets.toNumberPlain
             (UseTableQuery.exampleOptions (Some "users"))
             [("status", VStr "open")] (Some 4)
             {| UsePresets.data := Some UsePresets.examplePresets;
                UsePresets.error := VUndefined;
                UsePresets.isValidating := false;
                UsePresets.isLoading := false |}
             0
             (PageBuilder.firstRender
                (UseTableQuery.exampleOptions (Some "users")) 0))))
  = Functions.pruneNullOrUndefinedFields []
  /\ UseTableQuery.Params.filters
       (UseTableQuery.fetchParams
          (PageBuilder.query
             (PageBuilder.initialLoadWithPresets (fun _ => [])
                (UsePresets.parseTable UsePresets.exampleTable)
                UsePresets.toNumberPlain
                (UseTableQuery.exampleOptions (Some "users"))
                [("status", VStr "open")] None
                {| UsePresets.data := None;
                   UsePresets.error := VUndefined;
                   UsePresets.isValidating := true;
                   UsePresets.isLoading := true |}
                0
                (PageBuilder.firstRender
                   (UseTableQuery.exampleOptions (Some "users")) 0))))
     = Functions.pruneNullOrUndefinedFields [("status", VStr "open")].
Proof.
  split.
  - pose proof (initialLoad_submits_once (fun _ => [])
                  (UsePresets.parseTable UsePresets.exampleTable)
                  UsePresets.toNumberPlain
                  (UseTableQuery.exampleOptions (Some "users"))
                  [("status", VStr "open")] (Some 4)
                  {| UsePresets.data := Some UsePresets.examplePresets;
                     UsePresets.error := VUndefined;
                     UsePresets.isValidating := false;
                     UsePresets.isLoading := false |}
                  0
                  (PageBuilder.firstRender
                     (UseTableQuery.exampleOptions (Some "users")) 0)) as H.
    destruct H as [_ H]. destruct (H eq_refl) as (_ & _ & H3).
    assert (Hkind : Some 4 <> None) by discriminate.
    destruct (H3 Hkind eq_refl) as (Hpreset & _ & _).
    exact (proj1 (proj2 (proj2 (Hpreset _ [] eq_refl eq_refl)))).
  - pose proof (initialLoad_submits_once (fun _ => [])
                  (UsePresets.parseTable UsePresets.exampleTable)
                  UsePresets.toNumberPlain
                  (UseTableQuery.exampleOptions (Some "users"))
                  [("status", VStr "open")] None
                  {| UsePresets.data := None;
                     UsePresets.error := VUndefined;
                     UsePresets.isValidating := true;
                     UsePresets.isLoading := true |}
                  0
                  (PageBuilder.firstRender
                     (UseTableQuery.exampleOptions (Some "users")) 0)) as H.
    destruct H as [_ H]. destruct (H eq_refl) as (H1 & _ & _).
    exact (proj1 (proj2 (proj2 (H1 eq_refl)))).
Defined.

Lemma find_first_In {A : Type} (f : A -> bool) (before after : list A)
    (x : A) :
  (forall y, In y before -> f y = false) ->
  f x = true ->
  find f (before ++ x :: after) = Some x.
Proof.
  intros Hbefore Hx. induction before as [|y before IH]; cbn [app find].
  - now rewrite Hx.
  - rewrite (Hbefore y (or_introl eq_refl)). apply IH.
    intros z Hz. apply Hbefore. now right.
Qed.

Lemma find_none_all {A : Type} (f : A -> bool) (l : list A) :
  (forall y, In y l -> f y = false) -> find f l = None.
Proof.
  intros Hall. induction l as [|y l IH]; cbn [find]; [reflexivity|].
  rewrite (Hall y (or_introl eq_refl)). apply IH.
  intros z Hz. apply Hall. now right.
Qed.

(** X19.  The columns of the render context, when [columns] is a function:
    there is one per new column, in place, and it is the new column with at
    most its [hidden] property rewritten.  The managed column whose
    visibility is applied is the first one that agrees with the new column
    on [key] or on [dataIndex] (strict equality); a new column with which
    no managed column agrees is left as it is.  Two columns that both lack
    [key], or both lack [dataIndex], agree (both read [undefined]).  So a
    new column without a [key] takes the visibility of the first managed
    column whenever that one has no [key] either, whatever their
    [dataIndex]. *)
Theorem applyVisibility_rewrites_hidden_only :
  forall (managedColumns newColumns : list obj),
    Forall2
      (fun newCol final =>
         (forall k, k <> "hidden" -> lookup k final = lookup k newCol)
         /\ (final = newCol
             \/ exists managedCol,
                 In managedCol managedColumns
                 /\ final = obj_set newCol "hidden"
                              (VObj managedCol)?."hidden"))
      newColumns (PageBuilder.applyVisibility managedColumns newColumns)
    /\ (forall (i : nat) (newCol : obj),
           nth_error newColumns i = Some newCol ->
           (forall mc, In mc managedColumns ->
                       strictEq (VObj mc)?."key" (VObj newCol)?."key" = false
                       /\ strictEq (VObj mc)?."dataIndex"
                                   (VObj newCol)?."dataIndex" = false) ->
           nth_error (PageBuilder.applyVisibility managedColumns newColumns) i
           = Some newCol)
    /\ (forall (i : nat) (newCol : obj) (before after : list obj)
               (managedCol : obj),
           nth_error newColumns i = Some newCol ->
           managedColumns = (before ++ managedCol :: after)%list ->
           (forall mc, In mc before ->
                       strictEq (VObj mc)?."key" (VObj newCol)?."key" = false
                       /\ strictEq (VObj mc)?."dataIndex"
                                   (VObj newCol)?."dataIndex" = false) ->
           strictEq (VObj managedCol)?."key" (VObj newCol)?."key" = true
           \/ strictEq (VObj managedCol)?."dataIndex"
                       (VObj newCol)?."dataIndex" = true ->
           nth_error (PageBuilder.applyVisibility managedColumns newColumns) i
           = Some (obj_set newCol "hidden" (VObj managedCol)?."hidden"))
    /\ (forall (first : obj) (others : list obj) (i : nat) (newCol : obj),
           managedColumns = first :: others ->
           nth_error newColumns i = Some newCol ->
           (lookup "key" first = None /\ lookup "key" newCol = None)
           \/ (lookup "dataIndex" first = None
               /\ lookup "dataIndex" newCol = None) ->
           nth_error (PageBuilder.applyVisibility managedColumns newColumns) i
           = Some (obj_set newCol "hidden" (VObj first)?."hidden")).
Proof.
  intros managedColumns newColumns. split; [|split; [|split]].
  - unfold PageBuilder.applyVisibility.
    induction newColumns as [|newCol newColumns IH]; cbn [map];
      constructor; [|exact IH].
    match goal with
    | |- context [find ?f managedColumns] =>
        destruct (find f managedColumns) as [managedCol|] eqn:Hf
    end.
    + split.
      * intros k Hk. apply lookup_obj_set_other. now apply String.eqb_neq.
      * right. exists managedCol. split; [|reflexivity].
        now apply find_some in Hf.
    + split; [reflexivity|now left].
  - intros i newCol Hi Hnone.
    unfold PageBuilder.applyVisibility.
    rewrite (map_nth_error _ _ _ Hi).
    rewrite find_none_all; [reflexivity|].
    intros mc Hmc. destruct (Hnone mc Hmc) as [-> ->]. reflexivity.
  - intros i newCol before after managedCol Hi -> Hbefore Hagree.
    unfold PageBuilder.applyVisibility.
    rewrite (map_nth_error _ _ _ Hi).
    rewrite find_first_In; [reflexivity| |].
    + intros mc Hmc. destruct (Hbefore mc Hmc) as [-> ->]. reflexivity.
    + destruct Hagree as [->| ->]; [reflexivity|apply orb_true_r].
  - intros first others i newCol -> Hi Hlack.
    unfold PageBuilder.applyVisibility.
    rewrite (map_nth_error _ _ _ Hi). cbn [find].
    replace (strictEq (VObj first)?."key" (VObj newCol)?."key"
             || strictEq (VObj first)?."dataIndex" (VObj newCol)?."dataIndex")%bool
      with true; [reflexivity|].
    cbn [get]. destruct Hlack as [[-> ->]|[-> ->]]; cbn [strictEq].
    + reflexivity.
    + now rewrite orb_true_r.
Qed.

(** Two managed columns described by [dataIndex] only, the first hidden: the
    new [email] column comes out hidden although the managed [email] column
    is visible.  With keys on all columns, the new [email] column takes the
    visibility of the managed [email] column, and a new [phone] column,
    which no managed column describes, is left as it is. *)
Lemma applyVisibility_rewrites_hidden_only_witness :
  nth_error
    (PageBuilder.applyVisibility
       [ [("dataIndex", VStr "name"); ("hidden", VBool true)];
         [("dataIndex", VStr "email"); ("hidden", VBool false)] ]
       [ [("dataIndex", VStr "name")]; [("dataIndex", VStr "email")] ])
    1
  = Some [("dataIndex", VStr "email"); ("hidden", VBool true)]
  /\ nth_error
       (PageBuilder.applyVisibility
          [ [("key", VStr "name"); ("dataIndex", VStr "name");
             ("hidden", VBool true)];
            [("key", VStr "email"); ("dataIndex", VStr "email");
             ("hidden", VBool false)] ]
          [ [("key", VStr "email"); ("dataIndex", VStr "email")];
            [("key", VStr "phone"); ("dataIndex", VStr "phone")] ])
       0
     = Some [("key", VStr "email"); ("dataIndex", VStr "email");
             ("hidden", VBool false)]
  /\ nth_error
       (PageBuilder.applyVisibility
          [ [("key", VStr "name"); ("dataIndex", VStr "name");
             ("hidden", VBool true)];
            [("key", VStr "email"); ("dataIndex", VStr "email");
             ("hidden", VBool false)] ]
          [ [("key", VStr "email"); ("dataIndex", VStr "email")];
            [("key", VStr "phone"); ("dataIndex", VStr "phone")] ])
       1
     = Some [("key", VStr "phone"); ("dataIndex", VStr "phone")].
Proof.
  split; [|split].
  - apply (proj2 (proj2 (proj2 (applyVisibility_rewrites_hidden_only
                  [ [("dataIndex", VStr "name"); ("hidden", VBool true)];
                    [("dataIndex", VStr "email"); ("hidden", VBool false)] ]
                  [ [("dataIndex", VStr "name")];
                    [("dataIndex", VStr "email")] ])))
             [("dataIndex", VStr "name"); ("hidden", VBool true)]
             [ [("dataIndex", VStr "email"); ("hidden", VBool false)] ]
             1%nat [("dataIndex", VStr "email")]
             eq_refl eq_refl).
    left. split; reflexivity.
  - apply (proj1 (proj2 (proj2 (applyVisibility_rewrites_hidden_only
                  [ [("key", VStr "name"); ("dataIndex", VStr "name");
                     ("hidden", VBool true)];
                    [("key", VStr "email"); ("dataIndex", VStr "email");
                     ("hidden", VBool false)] ]
                  [ [("key", VStr "email"); ("dataIndex", VStr "email")];
                    [("key", VStr "phone"); ("dataIndex", VStr "phone")] ])))
             0%nat [("key", VStr "email"); ("dataIndex", VStr "email")]
             [ [("key", VStr "name"); ("dataIndex", VStr "name");
                ("hidden", VBool true)] ]
             []
             [("key", VStr "email"); ("dataIndex", VStr "email");
              ("hidden", VBool false)]
             eq_refl eq_refl).
    + intros mc [<-|[]]. split; reflexivity.
    + left. reflexivity.
  - apply (proj1 (proj2 (applyVisibility_rewrites_hidden_only
                  [ [("key", VStr "name"); ("dataIndex", VStr "name");
                     ("hidden", VBool true)];
                    [("key", VStr "email"); ("dataIndex", VStr "email");
                     ("hidden", VBool false)] ]
                  [ [("key", VStr "email"); ("dataIndex", VStr "email")];
                    [("key", VStr "phone"); ("dataIndex", VStr "phone")] ]))
             1%nat [("key", VStr "phone"); ("dataIndex", VStr "phone")]
             eq_refl).
    intros mc [<-|[<-|[]]]; split; reflexivity.
Defined.

(** ** The total of the pagination *)

(** X20.  [pagination.total] is the first of [mainResultCount],
    [MainResultCount], [body.mainResultCount], [response.mainResultCount],
    [total_rows] and [totalCount] that is neither [null] nor [undefined],
    and 0 when there is none.  A count of 0 is such a value: it is reported
    and the later properties are not consulted.  For the envelope
    [{mainResult: xs, mainResultCount: n}] the rows are [xs] and the total
    is [n]. *)
Theorem pagination_total_first_count :
  forall data : value,
    (forall (hit : value) (before after : list value),
        Pagination.totalPaths data = (before ++ hit :: after)%list ->
        forallb nullish before = true ->
        nullish hit = false ->
        Normalize.extractTotal data = hit)
    /\ (forallb nullish (Pagination.totalPaths data) = true ->
        Normalize.extractTotal data = VNum 0)
    /\ (data?."mainResultCount" = VNum 0 ->
        Normalize.extractTotal data = VNum 0)
    /\ (forall (xs : list value) (n : Z),
           Normalize.extractDataFromResponse
             (VObj [("mainResult", VArr xs); ("mainResultCount", VNum n)])
           = VArr xs
           /\ Normalize.extractTotal
                (VObj [("mainResult", VArr xs); ("mainResultCount", VNum n)])
              = VNum n).
Proof.
  intros data.
  assert (Hchain : Normalize.extractTotal data
                   = fold_right coalesce (VNum 0) (Pagination.totalPaths data))
    by reflexivity.
  split; [|split; [|split]].
  - intros hit before after Hp Hb Hh. rewrite Hchain, Hp.
    now apply coalesce_chain_hit.
  - intros Hnone. rewrite Hchain. now apply coalesce_chain_none.
  - intros H0. unfold Normalize.extractTotal. rewrite H0. reflexivity.
  - intros xs n. split; reflexivity.
Qed.

(** A response that carries [mainResultCount: 0] and [totalCount: 7] has the
    total 0; one that carries neither count has the total 0 as well. *)
Lemma pagination_total_first_count_witness :
  Normalize.extractTotal
    (VObj [("mainResultCount", VNum 0); ("totalCount", VNum 7)]) = VNum 0
  /\ Normalize.extractTotal
       (VObj [("body", VObj [("mainResultCount", VNum 12)]);
              ("totalCount", VNum 7)]) = VNum 12
  /\ Normalize.extractTotal (VObj [("rows", VArr [])]) = VNum 0.
Proof.
  split; [|split].
  - apply (proj1 (proj2 (proj2 (pagination_total_first_count _)))).
    reflexivity.
  - apply (proj1 (pagination_total_first_count _) _
             [VUndefined; VUndefined] [VUndefined; VUndefined; VNum 7]);
      reflexivity.
  - apply (proj1 (proj2 (pagination_total_first_count _))).
    reflexivity.
Defined.

(** ** What the hook never does on its own *)

(** X21.  Fetching is suppressed by exhausted retries only: along a run of
    events in which every failure is reported with a [retryCount] below 2,
    a hook whose key was defined keeps a defined key, whatever is
    submitted, sorted, paged, answered or cleared in between. *)
Theorem only_exhausted_retries_suppress :
  forall (JSON_stringify : value -> string)
         (opts : UseTableQuery.TableQueryOptions)
         (events : list UseTableQuery.Event)
         (st : UseTableQuery.State) (c : UseTableQuery.Cache),
    Forall (fun e => match e with
                     | UseTableQuery.FetchFailed retryCount => retryCount < 2
                     | _ => True
                     end) events ->
    UseTableQuery.isCacheKeyUndefined st = false ->
    UseTableQuery.swrKey JSON_stringify opts
      (fst (UseTableQuery.run opts events (st, c))) <> None.
Proof.
  intros JSON_stringify opts events st c Hev Hst.
  assert (H : UseTableQuery.isCacheKeyUndefined
                (fst (UseTableQuery.run opts events (st, c))) = false).
  { unfold UseTableQuery.run. revert st c Hst.
    induction Hev as [|e events He _ IH]; intros st c Hst; [exact Hst|].
    cbn [fold_left].
    assert (Hstep : UseTableQuery.isCacheKeyUndefined
                      (fst (UseTableQuery.step opts e (st, c))) = false).
    { destruct e as [ | | | | | | retryCount | ];
        cbn [UseTableQuery.step fst]; try exact Hst; try reflexivity.
      unfold UseTableQuery.onErrorRetry.
      destruct (2 <=? retryCount) eqn:E; [apply Z.leb_le in E; lia|].
      exact Hst. }
    destruct (UseTableQuery.step opts e (st, c)) as [st' c'].
    now apply IH. }
  unfold UseTableQuery.swrKey. rewrite H. discriminate.
Qed.

(** One failed request that is retried, an answer, a page change, the cache
    cleared by hand. *)
Lemma only_exhausted_retries_suppress_witness :
  UseTableQuery.swrKey (fun _ => "{}")
    (UseTableQuery.exampleOptions (Some "users"))
    (fst (UseTableQuery.run (UseTableQuery.exampleOptions (Some "users"))
            [UseTableQuery.FetchFailed 1;
             UseTableQuery.FetchSucceeded
               (VArr [VStr "users"; VNum 1; VNum 10; VStr "{}"; VStr "{}";
                      VStr "filters_0"])
               (VObj [("mainResult", VArr [])]);
             UseTableQuery.PaginationChange 2 10;
             UseTableQuery.ClearCache]
            (UseTableQuery.initialState
               (UseTableQuery.exampleOptions (Some "users")) 0,
             UseTableQuery.exampleCache)))
  <> None.
Proof.
  apply (only_exhausted_retries_suppress (fun _ => "{}")
           (UseTableQuery.exampleOptions (Some "users"))
           [UseTableQuery.FetchFailed 1;
            UseTableQuery.FetchSucceeded
              (VArr [VStr "users"; VNum 1; VNum 10; VStr "{}"; VStr "{}";
                     VStr "filters_0"])
              (VObj [("mainResult", VArr [])]);
            UseTableQuery.PaginationChange 2 10;
            UseTableQuery.ClearCache]
           (UseTableQuery.initialState
              (UseTableQuery.exampleOptions (Some "users")) 0)
           UseTableQuery.exampleCache).
  - repeat constructor.
  - reflexivity.
Defined.

(** Hiding the [email] column: [hidden] is written, [title] and [order] are
    not touched. *)
Lemma updateColumnVisibility_touches_only_hidden_and_order_witness :
  Forall2
    (fun col col' =>
       if strictEq (VObj col)?."dataIndex" (VStr "email") then
         lookup "hidden" col' = Some (VBool true)
         /\ lookup "order" col' = lookup "order" col
         /\ (forall k, k <> "hidden" -> k <> "order" ->
                       lookup k col' = lookup k col)
       else col' = col)
    [ [("dataIndex", VStr "name"); ("order", VNum 0)];
      [("dataIndex", VStr "email"); ("title", VStr "E-mail");
       ("order", VNum 1)] ]
    (UseTableQuery.columns
       (UseTableQuery.updateColumnVisibility "email" true None
          (UseTableQuery.setColumns
             [ [("dataIndex", VStr "name"); ("order", VNum 0)];
               [("dataIndex", VStr "email"); ("title", VStr "E-mail");
                ("order", VNum 1)] ]
             (UseTableQuery.initialState
                (UseTableQuery.exampleOptions None) 0)))).
Proof.
  exact (proj1 (updateColumnVisibility_touches_only_hidden_and_order
                  "email" true None
                  (UseTableQuery.setColumns
                     [ [("dataIndex", VStr "name"); ("order", VNum 0)];
                       [("dataIndex", VStr "email"); ("title", VStr "E-mail");
                        ("order", VNum 1)] ]
                     (UseTableQuery.initialState
                        (UseTableQuery.exampleOptions None) 0)))).
Defined.

(** ** Changes made in the table *)

(** X22.  [handleTableChange] with a sorter object.  The page and the page
    size of the next request are those of the table; the submitted filters
    stay.  When the sorter carries an [order], the next request sorts by its
    [columnKey] (by its [field] when that is missing), ascending for
    ["ascend"] and descending for anything else.  When it carries none, the
    sorter state is reset to the empty object and the next request names no
    column and asks for descending order.  Of a multi-sort array only the
    first sorter counts.  Without a sorter the change is the one
    [handlePaginationChange] makes. *)
Theorem handleTableChange_next_request :
  forall (pagination : UseTableQuery.Params.Pagination) (s : obj)
         (others : list value) (st : UseTableQuery.State),
    let st' := UseTableQuery.handleTableChange pagination (VObj s) st in
    let request := UseTableQuery.fetchParams st' in
    UseTableQuery.Params.pagination request = pagination
    /\ UseTableQuery.Params.filters request = UseTableQuery.submittedFilters st
    /\ (truthy (VObj s)?."order" = true ->
        UseTableQuery.sorter st' = VObj s
        /\ UseTableQuery.Params.orderColumn
             (UseTableQuery.Params.sorter request)
           = or_else (VObj s)?."columnKey" (VObj s)?."field"
        /\ UseTableQuery.Params.orderDir (UseTableQuery.Params.sorter request)
           = if strictEq (VObj s)?."order" (VStr "ascend") then 1 else -1)
    /\ (truthy (VObj s)?."order" = false ->
        UseTableQuery.sorter st' = VObj []
        /\ UseTableQuery.Params.sorter request
           = {| UseTableQuery.Params.orderColumn := VUndefined;
                UseTableQuery.Params.orderDir := -1 |})
    /\ UseTableQuery.handleTableChange pagination (VArr (VObj s :: others)) st
       = st'
    /\ UseTableQuery.handleTableChange pagination VUndefined st
       = UseTableQuery.handlePaginationChange
           (UseTableQuery.Params.page pagination)
           (UseTableQuery.Params.pageSize pagination) st.
Proof.
  intros pagination s others st st' request. subst request st'.
  split; [now destruct pagination|]. split; [reflexivity|].
  split; [|split; [|split]].
  - intros Ho.
    cbn [UseTableQuery.handleTableChange UseTableQuery.fetchParams
           UseTableQuery.sorter UseTableQuery.Params.sorter truthy nullish].
    rewrite Ho. unfold UseTableQuery.sorterParam.
    cbn [UseTableQuery.Params.orderColumn UseTableQuery.Params.orderDir].
    rewrite Ho. repeat split.
  - intros Ho.
    cbn [UseTableQuery.handleTableChange UseTableQuery.fetchParams
           UseTableQuery.sorter UseTableQuery.Params.sorter truthy nullish].
    rewrite Ho. split; reflexivity.
  - reflexivity.
  - reflexivity.
Qed.

(** The table asks for page 3, sorted by [name] ascending. *)
Lemma handleTableChange_next_request_witness :
  UseTableQuery.fetchParams
    (UseTableQuery.handleTableChange
       {| UseTableQuery.Params.page := 3; UseTableQuery.Params.pageSize := 20 |}
       (VObj [("field", VStr "name"); ("order", VStr "ascend")])
       (UseTableQuery.initialState (UseTableQuery.exampleOptions None) 0))
  = {| UseTableQuery.Params.filters := [];
       UseTableQuery.Params.pagination :=
         {| UseTableQuery.Params.page := 3;
            UseTableQuery.Params.pageSize := 20 |};
       UseTableQuery.Params.sorter :=
         {| UseTableQuery.Params.orderColumn := VStr "name";
            UseTableQuery.Params.orderDir := 1 |} |}.
Proof.
  pose proof (handleTableChange_next_request
                {| UseTableQuery.Params.page := 3;
                   UseTableQuery.Params.pageSize := 20 |}
                [("field", VStr "name"); ("order", VStr "ascend")] []
                (UseTableQuery.initialState
                   (UseTableQuery.exampleOptions None) 0))
    as (Hp & Hf & Hs & _).
  destruct (Hs eq_refl) as (_ & Hc & Hd).
  destruct (UseTableQuery.fetchParams _) as [f p [c d]].
  cbn in Hp, Hf, Hc, Hd. now subst.
Defined.
